(** * gcsfuse: the file inode and the type cache

    A shallow embedding of [FileInode] (package [inode]) and of [typeCache],
    together with the properties of the inode state machine: clobber
    detection, the write / set-mtime / sync protocols, the attribute
    blending rules and the expiry rule of the type cache.

    Conventions.
    - Go integers are [Z]; a conversion to [uint64] is written [uint64].
    - [time.Time] is the number of nanoseconds since the Unix epoch, a [Z];
      [time.Duration] is a number of nanoseconds.
    - A Go [error] is a value of [error]; the [nil] error is [None].
    - Everything outside the inode (bucket, clock, content cache, block
      pool, Go library parsers) answers through a [World], one per call of a
      public method; the calls made are recorded as a list of [Event]s. *)

From Stdlib Require Import ZArith Lia.
From stdpp Require Import gmap strings list.

Local Open Scope Z_scope.

(* ------------------------------------------------------------------ *)
(** ** Errors *)

(** The error values the inode creates or inspects.  [Errorf p e] is
    [fmt.Errorf(p + "%w", e)]; [FileClobberedError] is
    [gcsfuse_errors.FileClobberedError], whose [Err] field may be [nil]. *)
#[warnings="-register-all"]
Inductive error : Type :=
  | NotFoundError (msg : string)
  | PreconditionError (msg : string)
  | EOF
  | OtherError (msg : string)
  | Errorf (prefix : string) (e : error)
  | FileClobberedError (inner : option error).

(** [errors.As(err, &notFoundErr)]: some error of the chain is a
    [*gcs.NotFoundError]. *)
Fixpoint As_NotFoundError (e : error) : bool :=
  match e with
  | NotFoundError _ => true
  | Errorf _ e' => As_NotFoundError e'
  | FileClobberedError (Some e') => As_NotFoundError e'
  | _ => false
  end.

(** [errors.As(err, &preconditionErr)]. *)
Fixpoint As_PreconditionError (e : error) : bool :=
  match e with
  | PreconditionError _ => true
  | Errorf _ e' => As_PreconditionError e'
  | FileClobberedError (Some e') => As_PreconditionError e'
  | _ => false
  end.

(** [errors.As(err, &fileClobberedErr)], used to state what a caller sees. *)
Fixpoint As_FileClobberedError (e : error) : bool :=
  match e with
  | FileClobberedError _ => true
  | Errorf _ e' => As_FileClobberedError e'
  | _ => false
  end.

(** A value together with a Go error. *)
Inductive result (A : Type) : Type :=
  | ROk (a : A)
  | RErr (e : error).
Arguments ROk {A} a.
Arguments RErr {A} e.

(* ------------------------------------------------------------------ *)
(** ** Objects of the store *)

Definition Time : Type := Z.

(** The zero [time.Time] (January 1, year 1, 00:00:00 UTC). *)
Definition zeroTime : Time := -62135596800 * 1000000000.

(** [time.Unix(sec, 0)]. *)
Definition time_Unix (sec : Z) : Time := sec * 1000000000.

Definition uint64 (z : Z) : Z := z mod 2 ^ 64.

Module gcs.

Record MinObject : Type := {
  Name : string;
  Size : Z;
  Generation : Z;
  MetaGeneration : Z;
  Updated : Time;
  Metadata : gmap string string;
  ContentEncoding : string
}.

(** The zero value of the struct. *)
Definition zeroMinObject : MinObject :=
  {| Name := ""; Size := 0; Generation := 0; MetaGeneration := 0;
     Updated := zeroTime; Metadata := ∅; ContentEncoding := "" |}.

Definition HasContentEncodingGzip (m : MinObject) : bool :=
  bool_decide (ContentEncoding m = "gzip").

(** The attributes only a full stat returns (ACLs, owner, ...). *)
Record ExtendedObjectAttributes : Type := {
  Acl : list string;
  Owner : string
}.

Definition zeroExtended : ExtendedObjectAttributes :=
  {| Acl := []; Owner := "" |}.

(** A full object: the minimal projection and the extended attributes. *)
Record Object : Type := {
  min : MinObject;
  ext : ExtendedObjectAttributes
}.

Record StatObjectRequest : Type := {
  so_Name : string;
  ForceFetchFromGcs : bool;
  ReturnExtendedObjectAttributes : bool
}.

Record ReadObjectRequest : Type := {
  ro_Name : string;
  ro_Generation : Z;
  ReadCompressed : bool
}.

Record UpdateObjectRequest : Type := {
  uo_Name : string;
  uo_Generation : Z;
  MetaGenerationPrecondition : Z;
  uo_Metadata : gmap string string
}.

End gcs.

Module storageutil.

(** Modelled from the spec: [storageutil.ConvertObjToMinObject] is not
    among the sources; the source record is "a minimal projection of the
    remote object", and a [nil] object gives a [nil] result. *)
Definition ConvertObjToMinObject (o : option gcs.Object)
  : option gcs.MinObject :=
  gcs.min <$> o.

(** Modelled from the spec: [storageutil.ConvertMinObjectToObject] is not
    among the sources; it is the inverse embedding, with no extended
    attributes. *)
Definition ConvertMinObjectToObject (m : option gcs.MinObject)
  : option gcs.Object :=
  (fun m' => {| gcs.min := m'; gcs.ext := gcs.zeroExtended |}) <$> m.

(** Modelled from the spec:
    [storageutil.ConvertMinObjectAndExtendedObjectAttributesToObject] is
    not among the sources; it joins the two parts and is [nil] when either
    part is. *)
Definition ConvertMinObjectAndExtendedObjectAttributesToObject
    (m : option gcs.MinObject) (e : option gcs.ExtendedObjectAttributes)
  : option gcs.Object :=
  match m, e with
  | Some m', Some e' => Some {| gcs.min := m'; gcs.ext := e' |}
  | _, _ => None
  end.

End storageutil.

(* ------------------------------------------------------------------ *)
(** ** Generations *)

Record Generation : Type := {
  Object : Z;
  Metadata : Z
}.

(** Modelled from the spec: [Generation.Compare] is not among the sources;
    "Pair (object, meta) with total order: a < b iff a.object < b.object or
    (a.object == b.object and a.meta < b.meta)".  The result is negative,
    zero or positive. *)
Definition Compare (g other : Generation) : Z :=
  if Object g <? Object other then -1
  else if Object other <? Object g then 1
  else if Metadata g <? Metadata other then -1
  else if Metadata other <? Metadata g then 1
  else 0.

(* ------------------------------------------------------------------ *)
(** ** Scratch content: [gcsx.TempFile] *)

Module gcsx.

Definition MtimeMetadataKey : string := "gcsfuse_mtime".

(** Modelled from the spec: [gcsx.TempFile] is not among the sources.  "A
    randomly addressable byte log ... It is dirty iff any mutation (write,
    truncate, set_mtime) has occurred since materialization.
    stat.dirty_mtime is Some iff dirty." *)
Record TempFile : Type := {
  tf_data : list Byte.byte;
  tf_mtime : option Time;
  tf_destroyed : bool
}.

Record StatResult : Type := {
  sr_Size : Z;
  sr_Mtime : option Time
}.

(** The zero [StatResult], the value of an unassigned [sr]. *)
Definition zeroStatResult : StatResult :=
  {| sr_Size := 0; sr_Mtime := None |}.

(** Modelled from the spec: a scratch file over the bytes of a reader,
    not yet dirty. *)
Definition newTempFile (rc : list Byte.byte) : TempFile :=
  {| tf_data := rc; tf_mtime := None; tf_destroyed := false |}.

(** Modelled from the spec: "stat: returns {size, optional dirty_mtime};
    dirty_mtime present iff dirty". *)
Definition Stat (tf : TempFile) : StatResult :=
  {| sr_Size := Z.of_nat (length (tf_data tf)); sr_Mtime := tf_mtime tf |}.

(** Modelled from the spec: "read_at(dst, offset): exact positional read;
    short reads only at EOF with a distinguished end-of-stream signal".
    The result is the bytes read and whether the read was short. *)
Definition ReadAt (tf : TempFile) (n : nat) (offset : Z)
  : list Byte.byte * bool :=
  let got := take n (drop (Z.to_nat offset) (tf_data tf)) in
  (got, bool_decide (length got < n)%nat).

(** Modelled from the spec: "truncate(size): sets logical size; holes read
    as zero"; a mutation, so the file becomes dirty at time [now]. *)
Definition Truncate (now : Time) (tf : TempFile) (size : Z) : TempFile :=
  let n := Z.to_nat size in
  {| tf_data := take n (tf_data tf)
                ++ replicate (n - length (tf_data tf)) Byte.x00;
     tf_mtime := Some now;
     tf_destroyed := tf_destroyed tf |}.

(** Modelled from the spec: "write_at(src, offset): total write semantics
    (never short).  Marks dirty and updates dirty_mtime to now per the
    inode's clock." *)
Definition WriteAt (now : Time) (tf : TempFile) (data : list Byte.byte)
    (offset : Z) : TempFile :=
  let off := Z.to_nat offset in
  let old := tf_data tf in
  {| tf_data := take off old ++ replicate (off - length old) Byte.x00
                ++ data ++ drop (off + length data) old;
     tf_mtime := Some now;
     tf_destroyed := tf_destroyed tf |}.

(** Modelled from the spec: [set_mtime] is a mutation that records the
    given time as the dirty mtime. *)
Definition SetMtime (tf : TempFile) (mtime : Time) : TempFile :=
  {| tf_data := tf_data tf; tf_mtime := Some mtime;
     tf_destroyed := tf_destroyed tf |}.

(** Modelled from the spec: "destroy: releases any backing resources.
    Idempotent after first call." *)
Definition Destroy (tf : TempFile) : TempFile :=
  {| tf_data := tf_data tf; tf_mtime := tf_mtime tf;
     tf_destroyed := true |}.

End gcsx.

(* ------------------------------------------------------------------ *)
(** ** Streaming writes: [bufferedwrites.BufferedWriteHandler] *)

Module bufferedwrites.

(** Modelled from the spec: the handler is not among the sources.  "A
    streaming sink: write(buf, offset), set_mtime(t), write_file_info ->
    {total_size, mtime}, finalize -> remote_object." *)
Record BufferedWriteHandler : Type := {
  totalSize : Z;
  mtime : Time
}.

Record WriteFileInfo : Type := {
  TotalSize : Z;
  Mtime : Time
}.

Definition newBWHandler : BufferedWriteHandler :=
  {| totalSize := 0; mtime := zeroTime |}.

Definition SetMtime (h : BufferedWriteHandler) (t : Time)
  : BufferedWriteHandler :=
  {| totalSize := totalSize h; mtime := t |}.

Definition GetWriteFileInfo (h : BufferedWriteHandler) : WriteFileInfo :=
  {| TotalSize := totalSize h; Mtime := mtime h |}.

(** Modelled from the spec: "write(buf, offset) calls whose offsets must
    form a contiguous sequence starting at 0; non-contiguous writes fail
    with OutOfOrderWrite"; [upload] is the failure latched by the
    uploader, if any ("fails fast with UploadFailed"). *)
Definition Write (upload : option error) (h : BufferedWriteHandler)
    (data : list Byte.byte) (offset : Z) : result BufferedWriteHandler :=
  match upload with
  | Some e => RErr e
  | None =>
      if offset =? totalSize h
      then ROk {| totalSize := totalSize h + Z.of_nat (length data);
                  mtime := mtime h |}
      else RErr (OtherError "OutOfOrderWrite")
  end.

End bufferedwrites.

(* ------------------------------------------------------------------ *)
(** ** Content cache, configuration, attributes *)

Module contentcache.

Record CacheObjectKey : Type := {
  BucketName : string;
  ObjectName : string
}.

Record CacheObject : Type := {
  co_Generation : Z;
  co_MetaGeneration : Z;
  CacheFile : gcsx.TempFile
}.

(** Modelled from the spec: [CacheObject.ValidateGeneration] is not among
    the sources; "only entries whose stored generation tuple equals the
    caller's source_record generation are returned". *)
Definition ValidateGeneration (c : CacheObject) (gen metaGen : Z) : bool :=
  (co_Generation c =? gen) && (co_MetaGeneration c =? metaGen).

End contentcache.

Module cfg.

Record WriteConfig : Type := {
  ExperimentalEnableStreamingWrites : bool;
  BlockSizeMb : Z;
  MaxBlocksPerFile : Z
}.

End cfg.

Module fuseops.

Record InodeAttributes : Type := {
  Size : Z;
  Nlink : Z;
  Mode : Z;
  Atime : Time;
  Mtime : Time;
  Ctime : Time;
  Uid : Z;
  Gid : Z
}.

End fuseops.

(** The two names of an inode: the bucket and the key of the object. *)
Record Name : Type := {
  bucketName : string;
  objectName : string
}.

Definition GcsObjectName (n : Name) : string := objectName n.

(* ------------------------------------------------------------------ *)
(** ** The world around an inode *)

(** What the collaborators answer during one call of a public method.  Each
    method calls each collaborator at most once, so one answer per operation
    is enough; bucket operations answer as functions of their request. *)
Record World : Type := {
  (** [mtimeClock.Now()] *)
  clock_Now : Time;
  (** [bucket.Name()] *)
  bucket_Name : string;
  (** [bucket.StatObject]: the triple [(m, e, err)] *)
  bucket_StatObject :
    gcs.StatObjectRequest ->
    option gcs.MinObject * option gcs.ExtendedObjectAttributes * option error;
  (** [bucket.NewReader]: the bytes of the stream, or an error *)
  bucket_NewReader : gcs.ReadObjectRequest -> result (list Byte.byte);
  (** [bucket.UpdateObject]: the pair [(o, err)] *)
  bucket_UpdateObject :
    gcs.UpdateObjectRequest -> option gcs.Object * option error;
  (** [bucket.SyncObject]: the pair [(newObj, err)] *)
  bucket_SyncObject :
    string -> option gcs.Object -> gcsx.TempFile ->
    option gcs.Object * option error;
  (** [contentCache.Get] *)
  cache_Get : contentcache.CacheObjectKey -> option contentcache.CacheObject;
  (** [contentCache.AddOrReplace] *)
  cache_AddOrReplace :
    contentcache.CacheObjectKey -> Z -> Z -> list Byte.byte ->
    result contentcache.CacheObject;
  (** the error of [contentCache.NewTempFile], if any *)
  cache_NewTempFile : option error;
  (** the error of the scratch file's [Stat]/[ReadAt]/[WriteAt]/[Truncate] *)
  content_err : option error;
  (** the error of [bufferedwrites.NewBWHandler], if any *)
  NewBWHandler_err : option error;
  (** the failure latched by the uploader, if any *)
  upload_err : option error;
  (** [strconv.ParseInt(s, 0, 64)] *)
  strconv_ParseInt : string -> option Z;
  (** [time.Parse(time.RFC3339Nano, s)] *)
  time_Parse : string -> result Time;
  (** [t.UTC().Format(time.RFC3339Nano)] *)
  time_Format : Time -> string
}.

(** The calls an inode makes on its collaborators. *)
Inductive Event : Type :=
  | EvStatObject (req : gcs.StatObjectRequest)
  | EvNewReader (req : gcs.ReadObjectRequest)
  | EvUpdateObject (req : gcs.UpdateObjectRequest)
  | EvSyncObject (name : string) (latest : option gcs.Object)
                 (content : gcsx.TempFile)
  | EvCacheGet (key : contentcache.CacheObjectKey)
  | EvCacheAddOrReplace (key : contentcache.CacheObjectKey)
  | EvCacheRemove (key : contentcache.CacheObjectKey)
  | EvNewTempFile
  | EvContentStat
  | EvContentReadAt (n : nat) (offset : Z)
  | EvContentWriteAt (data : list Byte.byte) (offset : Z)
  | EvContentTruncate (size : Z)
  | EvContentSetMtime (mtime : Time)
  | EvContentDestroy
  | EvNewBWHandler (name : string)
  | EvBwhSetMtime (mtime : Time)
  | EvBwhWrite (data : list Byte.byte) (offset : Z)
  | EvBwhFinalize.

(* ------------------------------------------------------------------ *)
(** ** The file inode *)

Module inode.

(** The mutable and constant data of a [FileInode].  The dependencies
    ([bucket], [mtimeClock], [contentCache], [globalMaxBlocksSem]) live in
    the [World]; the lookup count [lc] has its own type, which the
    operations below never touch. *)
Record FileInode : Type := {
  id : Z;
  name : Name;
  attrs : fuseops.InodeAttributes;
  localFileCache : bool;
  src : gcs.MinObject;
  content : option gcsx.TempFile;
  destroyed : bool;
  local : bool;
  unlinked : bool;
  bwh : option bufferedwrites.BufferedWriteHandler;
  writeConfig : cfg.WriteConfig
}.

Definition set_src (m : gcs.MinObject) (f : FileInode) : FileInode :=
  {| id := id f; name := name f; attrs := attrs f;
     localFileCache := localFileCache f; src := m; content := content f;
     destroyed := destroyed f; local := local f; unlinked := unlinked f;
     bwh := bwh f; writeConfig := writeConfig f |}.

Definition set_content (c : option gcsx.TempFile) (f : FileInode)
  : FileInode :=
  {| id := id f; name := name f; attrs := attrs f;
     localFileCache := localFileCache f; src := src f; content := c;
     destroyed := destroyed f; local := local f; unlinked := unlinked f;
     bwh := bwh f; writeConfig := writeConfig f |}.

Definition set_destroyed (b : bool) (f : FileInode) : FileInode :=
  {| id := id f; name := name f; attrs := attrs f;
     localFileCache := localFileCache f; src := src f;
     content := content f; destroyed := b; local := local f;
     unlinked := unlinked f; bwh := bwh f; writeConfig := writeConfig f |}.

Definition set_local (b : bool) (f : FileInode) : FileInode :=
  {| id := id f; name := name f; attrs := attrs f;
     localFileCache := localFileCache f; src := src f;
     content := content f; destroyed := destroyed f; local := b;
     unlinked := unlinked f; bwh := bwh f; writeConfig := writeConfig f |}.

Definition set_unlinked (b : bool) (f : FileInode) : FileInode :=
  {| id := id f; name := name f; attrs := attrs f;
     localFileCache := localFileCache f; src := src f;
     content := content f; destroyed := destroyed f; local := local f;
     unlinked := b; bwh := bwh f; writeConfig := writeConfig f |}.

Definition set_bwh (h : option bufferedwrites.BufferedWriteHandler)
    (f : FileInode) : FileInode :=
  {| id := id f; name := name f; attrs := attrs f;
     localFileCache := localFileCache f; src := src f;
     content := content f; destroyed := destroyed f; local := local f;
     unlinked := unlinked f; bwh := h; writeConfig := writeConfig f |}.

(** [NewFileInode]: the source record is a copy of [m], or the zero
    [MinObject] when [m] is [nil]; no content, no handler. *)
Definition NewFileInode (id : Z) (name : Name) (m : option gcs.MinObject)
    (attrs : fuseops.InodeAttributes) (localFileCache localFile : bool)
    (writeConfig : cfg.WriteConfig) : FileInode :=
  let minObj := match m with Some m' => m' | None => gcs.zeroMinObject end in
  {| id := id; name := name; attrs := attrs;
     localFileCache := localFileCache; src := minObj; content := None;
     destroyed := false; local := localFile; unlinked := false;
     bwh := None; writeConfig := writeConfig |}.

(** *** The monad of inode methods

    A method runs on the inode it is called on, may change it, records the
    calls it makes, and ends with a value, with an error, or in a panic
    (a nil dereference). *)
Inductive res (A : Type) : Type :=
  | Ok (a : A)
  | Err (e : error)
  | Panic.
Arguments Ok {A} a.
Arguments Err {A} e.
Arguments Panic {A}.

Definition M (A : Type) : Type :=
  FileInode -> res A * FileInode * list Event.

Definition ret {A} (a : A) : M A := fun f => (Ok a, f, []).

Definition bind {A B} (m : M A) (k : A -> M B) : M B :=
  fun f =>
    match m f with
    | (Ok a, f1, t1) =>
        match k a f1 with
        | (r, f2, t2) => (r, f2, t1 ++ t2)
        end
    | (Err e, f1, t1) => (Err e, f1, t1)
    | (Panic, f1, t1) => (Panic, f1, t1)
    end.

Definition get : M FileInode := fun f => (Ok f, f, []).
Definition modify (g : FileInode -> FileInode) : M unit :=
  fun f => (Ok tt, g f, []).
Definition emit (ev : Event) : M unit := fun f => (Ok tt, f, [ev]).
Definition fail {A} (e : error) : M A := fun f => (Err e, f, []).
Definition panic {A} : M A := fun f => (Panic, f, []).

(** [if err != nil { err = fmt.Errorf(prefix + "%w", err); return }] *)
Definition wrap {A} (prefix : string) (m : M A) : M A :=
  fun f =>
    match m f with
    | (Err e, f1, t1) => (Err (Errorf prefix e), f1, t1)
    | other => other
    end.

Notation "'let!' x ':=' m 'in' k" := (bind m (fun x => k))
  (at level 10, x name, m at level 100, k at level 200).
Notation "'do!' m 'in' k" := (bind m (fun _ => k))
  (at level 10, m at level 100, k at level 200).

(** *** Accessors *)

Definition IsLocal (f : FileInode) : bool := local f.
Definition IsUnlinked (f : FileInode) : bool := unlinked f.
Definition Unlink : M unit := modify (set_unlinked true).
Definition Source (f : FileInode) : gcs.MinObject := src f.

Definition SourceGenerationIsAuthoritative (f : FileInode) : bool :=
  bool_decide (content f = None) && bool_decide (bwh f = None).

Definition SourceGeneration (f : FileInode) : Generation :=
  {| Object := gcs.Generation (src f);
     Metadata := gcs.MetaGeneration (src f) |}.

Definition cacheObjectKey (w : World) (f : FileInode)
  : contentcache.CacheObjectKey :=
  {| contentcache.BucketName := bucket_Name w;
     contentcache.ObjectName := objectName (name f) |}.

(** *** Helpers *)

Definition clobbered (w : World)
    (forceFetchFromGcs includeExtendedObjectAttributes : bool)
  : M (option gcs.Object * bool) :=
  let! f := get in
  let req :=
    {| gcs.so_Name := GcsObjectName (name f);
       gcs.ForceFetchFromGcs := forceFetchFromGcs;
       gcs.ReturnExtendedObjectAttributes :=
         includeExtendedObjectAttributes |} in
  do! emit (EvStatObject req) in
  match bucket_StatObject w req with
  | (m, e, err) =>
      let o :=
        if includeExtendedObjectAttributes
        then storageutil.ConvertMinObjectAndExtendedObjectAttributesToObject
               m e
        else storageutil.ConvertMinObjectToObject m in
      match err with
      | Some err' =>
          if As_NotFoundError err'
          then if IsLocal f then ret (o, false) else ret (o, true)
          else fail (Errorf "StatObject: " err')
      | None =>
          match o with
          | None => panic
          | Some o' =>
              let oGen :=
                {| Object := gcs.Generation (gcs.min o');
                   Metadata := gcs.MetaGeneration (gcs.min o') |} in
              ret (o, negb (Compare (SourceGeneration f) oGen =? 0))
          end
      end
  end.

Definition openReader (w : World) : M (list Byte.byte) :=
  let! f := get in
  let req :=
    {| gcs.ro_Name := gcs.Name (src f);
       gcs.ro_Generation := gcs.Generation (src f);
       gcs.ReadCompressed := gcs.HasContentEncodingGzip (src f) |} in
  do! emit (EvNewReader req) in
  match bucket_NewReader w req with
  | ROk rc => ret rc
  | RErr err =>
      let err1 :=
        if As_NotFoundError err
        then FileClobberedError (Some (Errorf "NewReader: " err))
        else err in
      fail (Errorf "NewReader: " err1)
  end.

Definition ensureContent (w : World) : M unit :=
  let! f := get in
  if localFileCache f then
    let key := cacheObjectKey w f in
    let refill : M unit :=
      let! rc := wrap "openReader Error: " (openReader w) in
      do! emit (EvCacheAddOrReplace key) in
      match cache_AddOrReplace w key (gcs.Generation (src f))
              (gcs.MetaGeneration (src f)) rc with
      | RErr e => fail (Errorf "AddOrReplace cache error: " e)
      | ROk tf => modify (set_content (Some (contentcache.CacheFile tf)))
      end in
    do! emit (EvCacheGet key) in
    match cache_Get w key with
    | Some cacheObject =>
        if contentcache.ValidateGeneration cacheObject
             (gcs.Generation (src f)) (gcs.MetaGeneration (src f))
        then modify (set_content (Some (contentcache.CacheFile cacheObject)))
        else refill
    | None => refill
    end
  else
    match content f with
    | Some _ => ret tt
    | None =>
        let! rc := wrap "openReader Error: " (openReader w) in
        do! emit EvNewTempFile in
        match cache_NewTempFile w with
        | Some e => fail (Errorf "NewTempFile: " e)
        | None => modify (set_content (Some (gcsx.newTempFile rc)))
        end
    end.

Definition ensureBufferedWriteHandler (w : World) : M unit :=
  let! f := get in
  match bwh f with
  | Some _ => ret tt
  | None =>
      do! emit (EvNewBWHandler (GcsObjectName (name f))) in
      match NewBWHandler_err w with
      | Some e => fail (Errorf "failed to create bufferedWriteHandler: " e)
      | None =>
          do! emit (EvBwhSetMtime (clock_Now w)) in
          modify (set_bwh (Some (bufferedwrites.SetMtime
                                   bufferedwrites.newBWHandler
                                   (clock_Now w))))
      end
  end.

(** The scratch file's calls, with the failure the world injects. *)
Definition content_Stat (w : World) (tf : gcsx.TempFile)
  : M gcsx.StatResult :=
  do! emit EvContentStat in
  match content_err w with
  | Some e => fail e
  | None => ret (gcsx.Stat tf)
  end.

(** *** Public interface *)

Definition Destroy (w : World) : M unit :=
  do! modify (set_destroyed true) in
  let! f := get in
  if localFileCache f then emit (EvCacheRemove (cacheObjectKey w f))
  else
    match content f with
    | Some tf =>
        do! emit EvContentDestroy in
        modify (set_content (Some (gcsx.Destroy tf)))
    | None => ret tt
    end.

Definition set_Mtime (t : Time) (a : fuseops.InodeAttributes)
  : fuseops.InodeAttributes :=
  {| fuseops.Size := fuseops.Size a; fuseops.Nlink := fuseops.Nlink a;
     fuseops.Mode := fuseops.Mode a; fuseops.Atime := fuseops.Atime a;
     fuseops.Mtime := t; fuseops.Ctime := fuseops.Ctime a;
     fuseops.Uid := fuseops.Uid a; fuseops.Gid := fuseops.Gid a |}.

Definition set_Size (n : Z) (a : fuseops.InodeAttributes)
  : fuseops.InodeAttributes :=
  {| fuseops.Size := n; fuseops.Nlink := fuseops.Nlink a;
     fuseops.Mode := fuseops.Mode a; fuseops.Atime := fuseops.Atime a;
     fuseops.Mtime := fuseops.Mtime a; fuseops.Ctime := fuseops.Ctime a;
     fuseops.Uid := fuseops.Uid a; fuseops.Gid := fuseops.Gid a |}.

Definition set_Atime (t : Time) (a : fuseops.InodeAttributes)
  : fuseops.InodeAttributes :=
  {| fuseops.Size := fuseops.Size a; fuseops.Nlink := fuseops.Nlink a;
     fuseops.Mode := fuseops.Mode a; fuseops.Atime := t;
     fuseops.Mtime := fuseops.Mtime a; fuseops.Ctime := fuseops.Ctime a;
     fuseops.Uid := fuseops.Uid a; fuseops.Gid := fuseops.Gid a |}.

Definition set_Ctime (t : Time) (a : fuseops.InodeAttributes)
  : fuseops.InodeAttributes :=
  {| fuseops.Size := fuseops.Size a; fuseops.Nlink := fuseops.Nlink a;
     fuseops.Mode := fuseops.Mode a; fuseops.Atime := fuseops.Atime a;
     fuseops.Mtime := fuseops.Mtime a; fuseops.Ctime := t;
     fuseops.Uid := fuseops.Uid a; fuseops.Gid := fuseops.Gid a |}.

Definition set_Nlink (n : Z) (a : fuseops.InodeAttributes)
  : fuseops.InodeAttributes :=
  {| fuseops.Size := fuseops.Size a; fuseops.Nlink := n;
     fuseops.Mode := fuseops.Mode a; fuseops.Atime := fuseops.Atime a;
     fuseops.Mtime := fuseops.Mtime a; fuseops.Ctime := fuseops.Ctime a;
     fuseops.Uid := fuseops.Uid a; fuseops.Gid := fuseops.Gid a |}.

Definition Attributes (w : World) : M fuseops.InodeAttributes :=
  let! f := get in
  let attrs := attrs f in
  (* Obtain default information from the source object. *)
  let attrs := set_Mtime (gcs.Updated (src f)) attrs in
  let attrs := set_Size (gcs.Size (src f)) attrs in
  (* goog-reserved-file-mtime, when present and parseable *)
  let attrs :=
    match gcs.Metadata (src f) !! "goog-reserved-file-mtime" with
    | Some strTimestamp =>
        match strconv_ParseInt w strTimestamp with
        | Some timestamp => set_Mtime (time_Unix timestamp) attrs
        | None => attrs
        end
    | None => attrs
    end in
  (* gcsfuse_mtime, when present *)
  let! attrs :=
    match gcs.Metadata (src f) !! "gcsfuse_mtime" with
    | Some formatted =>
        match time_Parse w formatted with
        | ROk t => ret (set_Mtime t attrs)
        | RErr e =>
            fail (Errorf ("time.Parse(" +:+ formatted +:+ "): ") e)
        end
    | None => ret attrs
    end in
  (* local content: its size and (maybe) mtime take precedence *)
  let! attrs :=
    match content f with
    | Some tf =>
        let! sr := wrap "stat: " (content_Stat w tf) in
        let attrs := set_Size (uint64 (gcsx.sr_Size sr)) attrs in
        match gcsx.sr_Mtime sr with
        | Some t => ret (set_Mtime t attrs)
        | None => ret attrs
        end
    | None => ret attrs
    end in
  let attrs :=
    match bwh f with
    | Some h =>
        let writeFileInfo := bufferedwrites.GetWriteFileInfo h in
        let attrs := set_Mtime (bufferedwrites.Mtime writeFileInfo) attrs in
        set_Size (uint64 (bufferedwrites.TotalSize writeFileInfo)) attrs
    | None => attrs
    end in
  (* atime and ctime need only be "reasonable" *)
  let attrs := set_Atime (fuseops.Mtime attrs) attrs in
  let attrs := set_Ctime (fuseops.Mtime attrs) attrs in
  let! r := wrap "clobbered: " (clobbered w false false) in
  let clobbered := snd r in
  let attrs := set_Nlink 1 attrs in
  if clobbered || (IsLocal f && IsUnlinked f)
  then ret (set_Nlink 0 attrs)
  else ret attrs.

(** [Read]: the bytes copied into [dst] (of length [n]) and whether the
    read ended with [io.EOF], which is passed through unwrapped. *)
Definition Read (w : World) (n : nat) (offset : Z)
  : M (list Byte.byte * bool) :=
  let! f := get in
  match bwh f with
  | Some _ => fail (OtherError "cannot read a file when upload in progress")
  | None =>
      do! wrap "ensureContent: " (ensureContent w) in
      let! f := get in
      match content f with
      | None => panic
      | Some tf =>
          do! emit (EvContentReadAt n offset) in
          match content_err w with
          | Some EOF => ret ([], true)
          | Some e => fail (Errorf "content.ReadAt: " e)
          | None => ret (gcsx.ReadAt tf n offset)
          end
      end
  end.

Definition Write (w : World) (data : list Byte.byte) (offset : Z)
  : M unit :=
  let! f := get in
  (* For empty GCS files also we will trigger bufferedWrites flow. *)
  do! (if (gcs.Size (src f) =? 0)
          && cfg.ExperimentalEnableStreamingWrites (writeConfig f)
       then ensureBufferedWriteHandler w
       else ret tt) in
  let! f := get in
  match bwh f with
  | Some h =>
      do! emit (EvBwhWrite data offset) in
      match bufferedwrites.Write (upload_err w) h data offset with
      | ROk h' => modify (set_bwh (Some h'))
      | RErr e => fail e
      end
  | None =>
      do! wrap "ensureContent: " (ensureContent w) in
      let! f := get in
      match content f with
      | None => panic
      | Some tf =>
          do! emit (EvContentWriteAt data offset) in
          match content_err w with
          | Some e => fail e
          | None =>
              modify (set_content
                        (Some (gcsx.WriteAt (clock_Now w) tf data offset)))
          end
      end
  end.

Definition FileMtimeMetadataKey : string := gcsx.MtimeMetadataKey.

Definition SetMtime (w : World) (mtime : Time) : M unit :=
  let! f := get in
  match bwh f with
  | Some h =>
      do! emit (EvBwhSetMtime mtime) in
      modify (set_bwh (Some (bufferedwrites.SetMtime h mtime)))
  | None =>
      (* If we have a local temp file, stat it. *)
      let! sr :=
        match content f with
        | Some tf => wrap "stat: " (content_Stat w tf)
        | None => ret gcsx.zeroStatResult
        end in
      if bool_decide (gcsx.sr_Mtime sr <> None) || IsLocal f then
        match content f with
        | None => panic
        | Some tf =>
            do! emit (EvContentSetMtime mtime) in
            modify (set_content (Some (gcsx.SetMtime tf mtime)))
        end
      else
        (* Otherwise, update the backing object's metadata. *)
        let formatted := time_Format w mtime in
        let srcGen := SourceGeneration f in
        let req :=
          {| gcs.uo_Name := gcs.Name (src f);
             gcs.uo_Generation := Object srcGen;
             gcs.MetaGenerationPrecondition := Metadata srcGen;
             gcs.uo_Metadata := {[ FileMtimeMetadataKey := formatted ]} |} in
        do! emit (EvUpdateObject req) in
        match bucket_UpdateObject w req with
        | (o, None) =>
            let minObj :=
              match storageutil.ConvertObjToMinObject o with
              | Some m => m
              | None => gcs.zeroMinObject
              end in
            modify (set_src minObj)
        | (_, Some err) =>
            if As_NotFoundError err then ret tt
            else if As_PreconditionError err then ret tt
            else fail (Errorf "UpdateObject: " err)
        end
  end.

Definition Sync (w : World) : M unit :=
  let! f := get in
  (* If we have not been dirtied, there is nothing to do. *)
  match content f with
  | None => ret tt
  | Some tf =>
      let! r := clobbered w true true in
      let latestGcsObj := fst r in
      let isClobbered := snd r in
      if isClobbered then fail (FileClobberedError None)
      else
        let objName := GcsObjectName (name f) in
        do! emit (EvSyncObject objName latestGcsObj tf) in
        match bucket_SyncObject w objName latestGcsObj tf with
        | (_, Some err) =>
            if As_PreconditionError err
            then fail (FileClobberedError
                         (Some (Errorf "SyncObject: " err)))
            else fail (Errorf "SyncObject: " err)
        | (newObj, None) =>
            (* If we wrote out a new object, we need to update our state. *)
            if bool_decide (newObj <> None) && negb (localFileCache f) then
              let minObj :=
                match storageutil.ConvertObjToMinObject newObj with
                | Some m => m
                | None => gcs.zeroMinObject
                end in
              do! modify (set_src minObj) in
              do! (if IsLocal f then modify (set_local false) else ret tt) in
              do! emit EvContentDestroy in
              modify (set_content None)
            else ret tt
        end
  end.

Definition Truncate (w : World) (size : Z) : M unit :=
  do! wrap "ensureContent: " (ensureContent w) in
  let! f := get in
  match content f with
  | None => panic
  | Some tf =>
      do! emit (EvContentTruncate size) in
      match content_err w with
      | Some e => fail e
      | None =>
          modify (set_content
                    (Some (gcsx.Truncate (clock_Now w) tf size)))
      end
  end.

Definition CacheEnsureContent (w : World) : M unit :=
  let! f := get in
  if localFileCache f then ensureContent w else ret tt.

Definition CreateBufferedOrTempWriter (w : World) : M unit :=
  let! f := get in
  (* Skip creating empty file when streaming writes are enabled *)
  if local f && cfg.ExperimentalEnableStreamingWrites (writeConfig f)
  then ensureBufferedWriteHandler w
  else
    do! emit EvNewTempFile in
    match cache_NewTempFile w with
    | Some _ =>
        (* f.content is nil here, and f.content.SetMtime dereferences it *)
        do! modify (set_content None) in
        panic
    | None =>
        do! emit (EvContentSetMtime (clock_Now w)) in
        modify (set_content
                  (Some (gcsx.SetMtime (gcsx.newTempFile []) (clock_Now w))))
    end.

End inode.

(* ------------------------------------------------------------------ *)
(** ** The LRU cache under the type cache *)

Module lru.

(** The interface [lru.ValueType]: a value reports its size in bytes. *)
Class ValueType (V : Type) : Type := Size : V -> Z.

Section Cache.
Context {V : Type} `{ValueType V}.

(** Modelled from the spec: [lru.Cache] is not among the sources (the spec
    calls it "the LRU type cache (a peer subsystem)").  The entries are
    kept most recently used first; the sizes of the values sum to at
    most [maxSize]. *)
Record Cache : Type := {
  maxSize : Z;
  entries : list (string * V)
}.

Definition NewCache (maxSize : Z) : Cache :=
  {| maxSize := maxSize; entries := [] |}.

Fixpoint assoc (key : string) (l : list (string * V)) : option V :=
  match l with
  | [] => None
  | (k, v) :: l' => if decide (k = key) then Some v else assoc key l'
  end.

Fixpoint remove (key : string) (l : list (string * V))
  : list (string * V) :=
  match l with
  | [] => []
  | (k, v) :: l' =>
      if decide (k = key) then remove key l' else (k, v) :: remove key l'
  end.

Fixpoint currentSize (l : list (string * V)) : Z :=
  match l with
  | [] => 0
  | (_, v) :: l' => Size v + currentSize l'
  end.

(** Evict the least recently used entry until the sizes fit; at most
    [fuel] evictions, one per entry. *)
Fixpoint evict (fuel : nat) (maxSize : Z) (l : list (string * V))
  : list (string * V) :=
  match fuel with
  | O => l
  | S fuel' =>
      if maxSize <? currentSize l
      then evict fuel' maxSize (removelast l)
      else l
  end.

(** Modelled from the spec: insert as most recently used, replacing an
    entry of the same key, then evict; a value larger than the cache is
    refused. *)
Definition Insert (key : string) (value : V) (c : Cache) : Cache :=
  if maxSize c <? Size value then c
  else
    let l := (key, value) :: remove key (entries c) in
    {| maxSize := maxSize c;
       entries := evict (length l) (maxSize c) l |}.

(** Modelled from the spec: erase all information about the key. *)
Definition Erase (key : string) (c : Cache) : Cache :=
  {| maxSize := maxSize c; entries := remove key (entries c) |}.

(** Modelled from the spec: the value of the key, if any, which becomes
    the most recently used. *)
Definition LookUp (key : string) (c : Cache) : option V * Cache :=
  match assoc key (entries c) with
  | None => (None, c)
  | Some v =>
      (Some v,
       {| maxSize := maxSize c;
          entries := (key, v) :: remove key (entries c) |})
  end.

End Cache.

Arguments Cache V : clear implicits.

End lru.

(* ------------------------------------------------------------------ *)
(** ** The type cache *)

Module typecache.

(** The values of [inode.Type]. *)
Inductive InodeType : Type :=
  | UnknownType
  | SymlinkType
  | RegularFileType
  | ExplicitDirType
  | ImplicitDirType
  | NonexistentType.

Definition MiBtoBytes : Z := 1024 * 1024.

Record cacheEntry : Type := {
  expiry : Time;
  inodeType : InodeType
}.

(** [unsafe.Sizeof(cacheEntry{})]: a [time.Time] and an [int], 32 bytes on
    a 64-bit platform. *)
#[export] Instance cacheEntry_Size : lru.ValueType cacheEntry :=
  fun _ => 32.

Record typeCache : Type := {
  ttl : Z;
  entries : lru.Cache cacheEntry
}.

(** [newTypeCache]; [None] is the panic on a size that is not positive. *)
Definition newTypeCache (sizeInMb : Z) (ttl : Z) : option typeCache :=
  if sizeInMb <=? 0 then None
  else Some {| ttl := ttl;
               entries := lru.NewCache
                            (uint64 (uint64 MiBtoBytes * uint64 sizeInMb)) |}.

Definition Insert (now : Time) (name : string) (it : InodeType)
    (tc : typeCache) : typeCache :=
  (* Are we disabled? *)
  if ttl tc =? 0 then tc
  else
    {| ttl := ttl tc;
       entries := lru.Insert name
                    {| expiry := now + ttl tc; inodeType := it |}
                    (entries tc) |}.

Definition Erase (name : string) (tc : typeCache) : typeCache :=
  {| ttl := ttl tc; entries := lru.Erase name (entries tc) |}.

Definition Get (now : Time) (name : string) (tc : typeCache)
  : InodeType * typeCache :=
  match lru.LookUp name (entries tc) with
  | (None, _) => (UnknownType, tc)
  | (Some entry, entries') =>
      (* Has the entry expired? *)
      if expiry entry <? now
      then (UnknownType,
            {| ttl := ttl tc; entries := lru.Erase name entries' |})
      else (inodeType entry, {| ttl := ttl tc; entries := entries' |})
  end.

(** A call on the cache, and a run of calls, oldest first. *)
Inductive Call : Type :=
  | CallInsert (now : Time) (name : string) (it : InodeType)
  | CallErase (name : string)
  | CallGet (now : Time) (name : string).

Definition call (c : Call) (tc : typeCache) : typeCache :=
  match c with
  | CallInsert now name it => Insert now name it tc
  | CallErase name => Erase name tc
  | CallGet now name => snd (Get now name tc)
  end.

Definition run (cs : list Call) (tc : typeCache) : typeCache :=
  fold_left (fun tc c => call c tc) cs tc.

(** The time and type of the last [Insert] of [name] in a run. *)
Fixpoint lastInsert (name : string) (cs : list Call)
  : option (Time * InodeType) :=
  match cs with
  | [] => None
  | c :: cs' =>
      match lastInsert name cs' with
      | Some r => Some r
      | None =>
          match c with
          | CallInsert now n it =>
              if decide (n = name) then Some (now, it) else None
          | _ => None
          end
      end
  end.

End typecache.

(* ------------------------------------------------------------------ *)
(** ** The state machine of an inode *)

(** Which content backings are materialized.  The three states of the
    design are [Pristine], [Scratch] and [Streaming]; the record also admits
    both backings at once. *)
Inductive Backing : Type :=
  | Pristine
  | Scratch
  | Streaming
  | ScratchAndStreaming.

Definition backing (f : inode.FileInode) : Backing :=
  match inode.content f, inode.bwh f with
  | None, None => Pristine
  | Some _, None => Scratch
  | None, Some _ => Streaming
  | Some _, Some _ => ScratchAndStreaming
  end.

(** At most one of scratch and handler is materialized. *)
Definition atMostOne (f : inode.FileInode) : Prop :=
  inode.content f = None \/ inode.bwh f = None.

Definition streamingWrites (f : inode.FileInode) : bool :=
  cfg.ExperimentalEnableStreamingWrites (inode.writeConfig f).

(** The public operations that change an inode. *)
Inductive Op : Type :=
  | OpRead (n : nat) (offset : Z)
  | OpWrite (data : list Byte.byte) (offset : Z)
  | OpTruncate (size : Z)
  | OpSetMtime (mtime : Time)
  | OpSync
  | OpCreateBufferedOrTempWriter
  | OpDestroy.

Definition exec (w : World) (op : Op) : inode.M unit :=
  match op with
  | OpRead n offset => inode.bind (inode.Read w n offset) (fun _ => inode.ret tt)
  | OpWrite data offset => inode.Write w data offset
  | OpTruncate size => inode.Truncate w size
  | OpSetMtime mtime => inode.SetMtime w mtime
  | OpSync => inode.Sync w
  | OpCreateBufferedOrTempWriter => inode.CreateBufferedOrTempWriter w
  | OpDestroy => inode.Destroy w
  end.

(** The states an inode can be in between two operations: a new inode, and
    what an operation that did not panic leaves behind, whatever the world
    answered. *)
Inductive reachable : inode.FileInode -> Prop :=
  | reachable_new id name m attrs localFileCache localFile writeConfig :
      reachable (inode.NewFileInode id name m attrs localFileCache localFile
                   writeConfig)
  | reachable_step f w op r f' tr :
      reachable f ->
      exec w op f = (r, f', tr) ->
      r <> inode.Panic ->
      reachable f'.

(** The claim about [Write] as the design words it: the write is enqueued
    to the handler exactly when the inode is pristine, local or of source
    size 0, and streaming writes are configured; otherwise it is delegated
    to scratch. *)
Definition streamingEligible (f : inode.FileInode) : Prop :=
  backing f = Pristine
  /\ (inode.local f = true \/ gcs.Size (inode.src f) = 0)
  /\ streamingWrites f = true.

(* ------------------------------------------------------------------ *)
(** ** Sample worlds and inodes *)

Definition sampleAttrs : fuseops.InodeAttributes :=
  {| fuseops.Size := 0; fuseops.Nlink := 0; fuseops.Mode := 420;
     fuseops.Atime := 0; fuseops.Mtime := 0; fuseops.Ctime := 0;
     fuseops.Uid := 1000; fuseops.Gid := 1000 |}.

Definition sampleName : Name :=
  {| bucketName := "bucket"; objectName := "dir/file.txt" |}.

(** An object of the store named as [sampleName]. *)
Definition sampleObject (size gen metaGen : Z) : gcs.MinObject :=
  {| gcs.Name := "dir/file.txt"; gcs.Size := size; gcs.Generation := gen;
     gcs.MetaGeneration := metaGen; gcs.Updated := 5000;
     gcs.Metadata := ∅; gcs.ContentEncoding := "" |}.

Definition fullObject (m : gcs.MinObject) : gcs.Object :=
  {| gcs.min := m; gcs.ext := {| gcs.Acl := ["owner"]; gcs.Owner := "me" |} |}.

Definition streamingOn : cfg.WriteConfig :=
  {| cfg.ExperimentalEnableStreamingWrites := true;
     cfg.BlockSizeMb := 32; cfg.MaxBlocksPerFile := 8 |}.

Definition streamingOff : cfg.WriteConfig :=
  {| cfg.ExperimentalEnableStreamingWrites := false;
     cfg.BlockSizeMb := 32; cfg.MaxBlocksPerFile := 8 |}.

(** A world in which nothing fails: the bucket holds [m] with bytes [bytes],
    an update returns [updated], a sync returns [synced]. *)
Definition worldOf (m : option gcs.MinObject) (bytes : list Byte.byte)
    (updated : option gcs.Object * option error)
    (synced : option gcs.Object * option error) : World :=
  {| clock_Now := 9000;
     bucket_Name := "bucket";
     bucket_StatObject := fun req =>
       match m with
       | Some m' =>
           (Some m',
            if gcs.ReturnExtendedObjectAttributes req
            then Some (gcs.ext (fullObject m')) else None,
            None)
       | None => (None, None, Some (NotFoundError "no such object"))
       end;
     bucket_NewReader := fun _ => ROk bytes;
     bucket_UpdateObject := fun _ => updated;
     bucket_SyncObject := fun _ _ _ => synced;
     cache_Get := fun _ => None;
     cache_AddOrReplace := fun _ gen metaGen rc =>
       ROk {| contentcache.co_Generation := gen;
              contentcache.co_MetaGeneration := metaGen;
              contentcache.CacheFile := gcsx.newTempFile rc |};
     cache_NewTempFile := None;
     content_err := None;
     NewBWHandler_err := None;
     upload_err := None;
     strconv_ParseInt := fun _ => None;
     time_Parse := fun _ => RErr (OtherError "parsing time");
     time_Format := fun _ => "2024-01-02T03:04:05.000000006Z" |}.

(** An inode over an empty object of the store, with streaming writes
    configured. *)
Definition emptyRemote : inode.FileInode :=
  inode.NewFileInode 7 sampleName (Some (sampleObject 0 7 1)) sampleAttrs
    false false streamingOn.

(** An inode over an object of ten bytes, scratch kept in the content cache
    or not. *)
Definition tenBytes (localFileCache : bool) : inode.FileInode :=
  inode.NewFileInode 8 sampleName (Some (sampleObject 10 7 1)) sampleAttrs
    localFileCache false streamingOff.

(** A new local file, with streaming writes configured. *)
Definition newLocal : inode.FileInode :=
  inode.NewFileInode 9 sampleName None sampleAttrs false true streamingOn.

Definition hello : list Byte.byte :=
  [Byte.x68; Byte.x65; Byte.x6c; Byte.x6c; Byte.x6f].

(** The state of an inode after an operation. *)
Definition after (w : World) (op : Op) (f : inode.FileInode)
  : inode.FileInode :=
  snd (fst (exec w op f)).

(** The three parts of what a method leaves behind. *)
Definition outcome {A} (x : inode.res A * inode.FileInode * list Event)
  : inode.res A := fst (fst x).
Definition stateOf {A} (x : inode.res A * inode.FileInode * list Event)
  : inode.FileInode := snd (fst x).
Definition traceOf {A} (x : inode.res A * inode.FileInode * list Event)
  : list Event := snd x.

(** A streaming inode: a new local file after [CreateBufferedOrTempWriter]. *)
Definition streamingLocal : inode.FileInode :=
  after (worldOf None [] (None, None) (None, None))
    OpCreateBufferedOrTempWriter newLocal.

(** The request [SetMtime] sends to [UpdateObject]. *)
Definition mtimeRequest (w : World) (mtime : Time) (f : inode.FileInode)
  : gcs.UpdateObjectRequest :=
  {| gcs.uo_Name := gcs.Name (inode.src f);
     gcs.uo_Generation := gcs.Generation (inode.src f);
     gcs.MetaGenerationPrecondition := gcs.MetaGeneration (inode.src f);
     gcs.uo_Metadata := {[ inode.FileMtimeMetadataKey := time_Format w mtime ]} |}.

(** [SetMtime] reaches [UpdateObject]: no handler, the inode is not local,
    and the scratch file, if any, can be inspected and is not dirty. *)
Definition onUpdatePath (w : World) (f : inode.FileInode) : Prop :=
  inode.bwh f = None
  /\ inode.local f = false
  /\ match inode.content f with
     | Some tf => content_err w = None /\ gcsx.tf_mtime tf = None
     | None => True
     end.

(** The request [clobbered] sends to [StatObject]. *)
Definition statRequest (f : inode.FileInode)
    (forceFetchFromGcs includeExtendedObjectAttributes : bool)
  : gcs.StatObjectRequest :=
  {| gcs.so_Name := GcsObjectName (inode.name f);
     gcs.ForceFetchFromGcs := forceFetchFromGcs;
     gcs.ReturnExtendedObjectAttributes := includeExtendedObjectAttributes |}.

(** The mtime the source record alone gives, in the words of the design:
    start from [updated]; the key goog-reserved-file-mtime (Unix seconds)
    overrides it if present and parseable; the key gcsfuse_mtime overrides
    both if present. *)
Definition sourceMtime (w : World) (m : gcs.MinObject) : Time :=
  match gcs.Metadata m !! "gcsfuse_mtime" with
  | Some formatted =>
      match time_Parse w formatted with
      | ROk t => t
      | RErr _ => zeroTime
      end
  | None =>
      match gcs.Metadata m !! "goog-reserved-file-mtime" with
      | Some strTimestamp =>
          match strconv_ParseInt w strTimestamp with
          | Some timestamp => time_Unix timestamp
          | None => gcs.Updated m
          end
      | None => gcs.Updated m
      end
  end.

(** The inode of scenario 6: a source of ten bytes with a gcsfuse_mtime,
    and a dirty scratch file of twenty bytes. *)
Definition dirtyTwenty : inode.FileInode :=
  inode.set_content
    (Some {| gcsx.tf_data := replicate 20 Byte.x41;
             gcsx.tf_mtime := Some 7777; gcsx.tf_destroyed := false |})
    (inode.NewFileInode 8 sampleName
       (Some {| gcs.Name := "dir/file.txt"; gcs.Size := 10;
                gcs.Generation := 7; gcs.MetaGeneration := 1;
                gcs.Updated := 5000;
                gcs.Metadata := {[ "gcsfuse_mtime" := "T1" ]};
                gcs.ContentEncoding := "" |})
       sampleAttrs false false streamingOff).

(** A world like [worldOf] in which every time string parses to [t]. *)
Definition withParse (t : Time) (w : World) : World :=
  {| clock_Now := clock_Now w; bucket_Name := bucket_Name w;
     bucket_StatObject := bucket_StatObject w;
     bucket_NewReader := bucket_NewReader w;
     bucket_UpdateObject := bucket_UpdateObject w;
     bucket_SyncObject := bucket_SyncObject w;
     cache_Get := cache_Get w; cache_AddOrReplace := cache_AddOrReplace w;
     cache_NewTempFile := cache_NewTempFile w; content_err := content_err w;
     NewBWHandler_err := NewBWHandler_err w; upload_err := upload_err w;
     strconv_ParseInt := strconv_ParseInt w;
     time_Parse := fun _ => ROk t;
     time_Format := time_Format w |}.

(** An inode over ten bytes, truncated to four, with its scratch file in
    the content cache or not. *)
Definition truncatedTo4 (localFileCache : bool) : inode.FileInode :=
  after (worldOf (Some (sampleObject 10 7 1)) [] (None, None) (None, None))
    (OpTruncate 4) (tenBytes localFileCache).

(** A world in which the bucket still holds generation (7, 1) and a sync
    writes generation (8, 1). *)
Definition syncWorld : World :=
  worldOf (Some (sampleObject 10 7 1)) [] (None, None)
    (Some (fullObject (sampleObject 4 8 1)), None).

(** The calls [ensureContent] makes to fetch the content. *)
Definition isFetch (ev : Event) : bool :=
  match ev with
  | EvCacheGet _ | EvNewReader _ | EvCacheAddOrReplace _ | EvNewTempFile => true
  | _ => false
  end.

(** What the code of [Write] tests before it hands the data to the handler:
    a handler exists already, or the source is empty, streaming writes are
    configured and a handler can be created. *)
Definition writesToHandler (w : World) (f : inode.FileInode) : Prop :=
  inode.bwh f <> None
  \/ (gcs.Size (inode.src f) = 0
      /\ streamingWrites f = true
      /\ NewBWHandler_err w = None).

(** An inode over an empty object after a read: its scratch is materialized. *)
Definition emptyRemoteRead : inode.FileInode :=
  after (worldOf (Some (sampleObject 0 7 1)) [] (None, None) (None, None))
    (OpRead 4 0) emptyRemote.

(** The calls on the buffered write handler. *)
Definition isHandlerCall (ev : Event) : bool :=
  match ev with
  | EvNewBWHandler _ | EvBwhSetMtime _ | EvBwhWrite _ _ => true
  | _ => false
  end.

(** What [Write] does once there is content: the rest of its body. *)
Definition writeToScratch (w : World) (data : list Byte.byte) (offset : Z)
    (f1 : inode.FileInode) (t1 : list Event)
  : inode.res unit * inode.FileInode * list Event :=
  match inode.content f1 with
  | None => (inode.Panic, f1, t1)
  | Some tf =>
      match content_err w with
      | Some e => (inode.Err e, f1, t1 ++ [EvContentWriteAt data offset])
      | None =>
          (inode.Ok tt,
           inode.set_content
             (Some (gcsx.WriteAt (clock_Now w) tf data offset)) f1,
           t1 ++ [EvContentWriteAt data offset])
      end
  end.

(** What holds of a type cache after the calls [cs]: its constants are
    those it was created with, it is empty if it cannot store anything, and
    every entry is the last insert of its name, expiring [ttl0] later. *)
Definition consistent (ttl0 maxSize0 : Z) (cs : list typecache.Call)
    (tc : typecache.typeCache) : Prop :=
  typecache.ttl tc = ttl0
  /\ lru.maxSize (typecache.entries tc) = maxSize0
  /\ (ttl0 = 0 \/ maxSize0 < 32 -> lru.entries (typecache.entries tc) = [])
  /\ forall n e,
      lru.assoc n (lru.entries (typecache.entries tc)) = Some e ->
      exists t0,
        typecache.lastInsert n cs = Some (t0, typecache.inodeType e)
        /\ typecache.expiry e = t0 + ttl0.

(** A type cache of 4 MiB whose entries live for one minute. *)
Definition minuteCache : typecache.typeCache :=
  {| typecache.ttl := 60000000000;
     typecache.entries := lru.NewCache 4194304 |}.

(** The request [openReader] sends to [NewReader]: the source object at the
    source generation. *)
Definition readerRequest (f : inode.FileInode) : gcs.ReadObjectRequest :=
  {| gcs.ro_Name := gcs.Name (inode.src f);
     gcs.ro_Generation := gcs.Generation (inode.src f);
     gcs.ReadCompressed := gcs.HasContentEncodingGzip (inode.src f) |}.

(** The calls that go to the bucket. *)
Definition isBucketCall (ev : Event) : bool :=
  match ev with
  | EvStatObject _ | EvNewReader _ | EvUpdateObject _ | EvSyncObject _ _ _ =>
      true
  | _ => false
  end.

(** The invariant [checkInvariants] enforces on the source record: unless
    the inode is destroyed or local, the source object is named as the
    inode. *)
Definition srcNameInvariant (f : inode.FileInode) : Prop :=
  inode.destroyed f = false ->
  inode.IsLocal f = false ->
  gcs.Name (inode.src f) = GcsObjectName (inode.name f).

(** A bucket that answers an update or a sync without an error returns an
    object, named as it was asked. *)
Definition namesAsAsked (w : World) : Prop :=
  (forall req o,
      bucket_UpdateObject w req = (o, None) ->
      exists o', o = Some o' /\ gcs.Name (gcs.min o') = gcs.uo_Name req)
  /\ (forall objName latest tf o,
         bucket_SyncObject w objName latest tf = (Some o, None) ->
         gcs.Name (gcs.min o) = objName).

(** A run of operations, each in its own world, first to last. *)
Definition execs (steps : list (World * Op)) (f : inode.FileInode)
  : inode.FileInode :=
  fold_left (fun f step => after (fst step) (snd step) f) steps f.

(** A world whose bucket holds generation (7, 1) of ten bytes and answers
    every update and every sync with an object named as asked. *)
Definition honestWorld : World :=
  {| clock_Now := 9000;
     bucket_Name := "bucket";
     bucket_StatObject := fun req =>
       (Some (sampleObject 10 7 1),
        if gcs.ReturnExtendedObjectAttributes req
        then Some (gcs.ext (fullObject (sampleObject 10 7 1))) else None,
        None);
     bucket_NewReader := fun _ => ROk (replicate 10 Byte.x41);
     bucket_UpdateObject := fun req =>
       (Some (fullObject
                {| gcs.Name := gcs.uo_Name req; gcs.Size := 10;
                   gcs.Generation := gcs.uo_Generation req;
                   gcs.MetaGeneration := gcs.MetaGenerationPrecondition req + 1;
                   gcs.Updated := 9000;
                   gcs.Metadata := gcs.uo_Metadata req;
                   gcs.ContentEncoding := "" |}),
        None);
     bucket_SyncObject := fun objName _ tf =>
       (Some (fullObject
                {| gcs.Name := objName;
                   gcs.Size := Z.of_nat (length (gcsx.tf_data tf));
                   gcs.Generation := 8; gcs.MetaGeneration := 1;
                   gcs.Updated := 9000; gcs.Metadata := ∅;
                   gcs.ContentEncoding := "" |}),
        None);
     cache_Get := fun _ => None;
     cache_AddOrReplace := fun _ gen metaGen rc =>
       ROk {| contentcache.co_Generation := gen;
              contentcache.co_MetaGeneration := metaGen;
              contentcache.CacheFile := gcsx.newTempFile rc |};
     cache_NewTempFile := None;
     content_err := None;
     NewBWHandler_err := None;
     upload_err := None;
     strconv_ParseInt := fun _ => None;
     time_Parse := fun _ => RErr (OtherError "parsing time");
     time_Format := fun _ => "2024-01-02T03:04:05.000000006Z" |}.

(** The steps that put a second backing beside the one an inode has, when
    the collaborator they rely on succeeds: a [Write] that creates a handler
    beside scratch content (empty source, streaming writes configured), a
    [Truncate] that materializes scratch content beside a handler, and a
    [CreateBufferedOrTempWriter] that creates a handler beside scratch content
    (local inode, streaming writes configured) or an empty scratch file beside
    a handler (otherwise). *)
Definition mixes (w : World) (op : Op) (f : inode.FileInode) : bool :=
  match op with
  | OpWrite _ _ =>
      match inode.content f, inode.bwh f, NewBWHandler_err w with
      | Some _, None, None =>
          (gcs.Size (inode.src f) =? 0) && streamingWrites f
      | _, _, _ => false
      end
  | OpTruncate _ =>
      match inode.bwh f, outcome (inode.ensureContent w f) with
      | Some _, inode.Ok _ => true
      | _, _ => false
      end
  | OpCreateBufferedOrTempWriter =>
      if inode.local f && streamingWrites f
      then match inode.content f, inode.bwh f, NewBWHandler_err w with
           | Some _, None, None => true
           | _, _, _ => false
           end
      else match inode.bwh f, cache_NewTempFile w with
           | Some _, None => true
           | _, _ => false
           end
  | _ => false
  end.

(** The states reached by runs of operations none of whose steps mixes the
    backings. *)
Inductive reachableUnmixed : inode.FileInode -> Prop :=
  | unmixed_new id name m attrs localFileCache localFile writeConfig :
      reachableUnmixed
        (inode.NewFileInode id name m attrs localFileCache localFile
           writeConfig)
  | unmixed_step f w op r f' tr :
      reachableUnmixed f ->
      mixes w op f = false ->
      exec w op f = (r, f', tr) ->
      r <> inode.Panic ->
      reachableUnmixed f'.

(* ================================================================== *)
(** * Properties *)

(** Unfold the monad of inode methods. *)
Ltac run_m :=
  cbv beta iota zeta delta
    [inode.bind inode.ret inode.get inode.modify inode.emit inode.fail
     inode.panic inode.wrap outcome stateOf traceOf] in *.

(** Split on the scrutinee of a [match] or [if] in the goal. *)
Ltac split_goal :=
  match goal with
  | |- context [match ?x with _ => _ end] =>
      lazymatch x with
      | context [match _ with _ => _ end] => fail
      | _ => destruct x eqn:?
      end
  end.

(** The same, in a hypothesis. *)
Ltac split_hyp :=
  match goal with
  | H : context [match ?x with _ => _ end] |- _ =>
      lazymatch x with
      | context [match _ with _ => _ end] => fail
      | _ => destruct x eqn:?
      end
  end.

(** Decompose the membership of an event in a trace built from conses,
    appends and singletons. *)
Ltac trace_in H :=
  repeat first
    [ apply elem_of_nil in H; destruct H
    | apply elem_of_app in H as [H|H]
    | apply elem_of_cons in H as [H|H]; [try discriminate H|] ].

(** Run an operation symbolically: every path through it, with the runs of
    [ensureContent] and of the forced [clobbered] named. *)
Ltac exec_paths Hex w f Hen Hcl :=
  destruct (inode.ensureContent w f) as [[? ?] ?] eqn:Hen;
  destruct (inode.clobbered w true true f) as [[? ?] ?] eqn:Hcl;
  unfold exec, inode.Read, inode.Write, inode.Truncate, inode.SetMtime,
    inode.Sync, inode.CreateBufferedOrTempWriter, inode.Destroy,
    inode.ensureBufferedWriteHandler, inode.content_Stat in Hex;
  run_m;
  repeat (first [ rewrite Hen in Hex | rewrite Hcl in Hex | idtac ];
          run_m; simpl in Hex; try split_hyp);
  simplify_eq.

(** ** Sync *)

Lemma Sync_no_content w f :
  inode.content f = None -> inode.Sync w f = (inode.Ok tt, f, []).
Proof.
  intros Hc. unfold inode.Sync. run_m. rewrite Hc. reflexivity.
Qed.

(** C1 (as amended): on an inode in the Streaming state, [Sync] returns
    success at once: it calls no collaborator (in particular it finalizes
    nothing) and leaves the inode as it was, still Streaming, with its
    handler, its source record and its local flag. *)
Theorem Sync_streaming_unchanged w f :
  backing f = Streaming ->
  inode.Sync w f = (inode.Ok tt, f, [])
  /\ backing (stateOf (inode.Sync w f)) = Streaming.
Proof.
  intros Hb.
  assert (Hc : inode.content f = None).
  { unfold backing in Hb. destruct (inode.content f), (inode.bwh f); congruence. }
  rewrite (Sync_no_content w f Hc). split; [reflexivity | exact Hb].
Qed.

Lemma Sync_streaming_unchanged_witness :
  backing streamingLocal = Streaming
  /\ inode.Sync (worldOf None [] (None, None) (None, None)) streamingLocal
     = (inode.Ok tt, streamingLocal, []).
Proof.
  split; [reflexivity |].
  exact (proj1 (Sync_streaming_unchanged
                  (worldOf None [] (None, None) (None, None))
                  streamingLocal eq_refl)).
Defined.

(** C1 (as stated) fails: after [Sync] on the streaming inode of a new
    local file the handler is still there, the inode is still local and
    nothing was finalized, though the bucket would have accepted a sync. *)
Lemma Sync_streaming_not_pristine :
  let w := worldOf None [] (None, None)
             (Some (fullObject (sampleObject 5 8 1)), None) in
  backing streamingLocal = Streaming
  /\ outcome (inode.Sync w streamingLocal) = inode.Ok tt
  /\ backing (stateOf (inode.Sync w streamingLocal)) = Streaming
  /\ inode.local (stateOf (inode.Sync w streamingLocal)) = true
  /\ inode.src (stateOf (inode.Sync w streamingLocal)) = gcs.zeroMinObject
  /\ traceOf (inode.Sync w streamingLocal) = [].
Proof. vm_compute. repeat split. Qed.

(** ** Source generation *)

(** C9: [SourceGenerationIsAuthoritative] answers true exactly when neither
    scratch content nor a buffered write handler is materialized, that is
    when the inode is Pristine; this holds in every state of the record, so
    in every reachable one. *)
Theorem SourceGenerationIsAuthoritative_iff_pristine :
  forall f,
    (inode.SourceGenerationIsAuthoritative f = true
     <-> inode.content f = None /\ inode.bwh f = None)
    /\ (inode.SourceGenerationIsAuthoritative f = true
        <-> backing f = Pristine).
Proof.
  intros f. unfold inode.SourceGenerationIsAuthoritative, backing.
  destruct (inode.content f) as [tf|], (inode.bwh f) as [h|]; simpl;
    repeat split; intros; try discriminate; try tauto;
    match goal with H : _ /\ _ |- _ => destruct H; discriminate end.
Qed.

(** ** Sync: precondition failures *)

(** What [clobbered] did when [Sync] went past it. *)
Lemma clobbered_not_clobbered w force ext f o f1 t1 :
  inode.clobbered w force ext f = (inode.Ok (o, false), f1, t1) ->
  f1 = f /\ t1 = [EvStatObject (statRequest f force ext)].
Proof.
  unfold inode.clobbered, statRequest. run_m.
  destruct (bucket_StatObject w _) as [[m e] [err|]];
    repeat (split_goal; run_m); intros; simplify_eq; auto.
Qed.

Lemma clobbered_state w force ext f :
  stateOf (inode.clobbered w force ext f) = f
  /\ traceOf (inode.clobbered w force ext f)
     = [EvStatObject (statRequest f force ext)].
Proof.
  unfold inode.clobbered, statRequest. run_m.
  destruct (bucket_StatObject w _) as [[m e] [err|]];
    repeat (split_goal; run_m); auto.
Qed.

(** C5: when the [SyncObject] call of [Sync] fails with an error in which a
    precondition error is found, [Sync] returns a [FileClobberedError] that
    wraps it, not the plain "SyncObject: " wrapping, and the inode, with its
    source record, is as before. *)
Theorem Sync_precondition_is_clobbered w f r f' tr objName latest tf o err :
  inode.Sync w f = (r, f', tr) ->
  EvSyncObject objName latest tf ∈ tr ->
  bucket_SyncObject w objName latest tf = (o, Some err) ->
  As_PreconditionError err = true ->
  r = inode.Err (FileClobberedError (Some (Errorf "SyncObject: " err)))
  /\ f' = f
  /\ inode.src f' = inode.src f.
Proof.
  intros Hs Hin Hb Hp.
  assert (r = inode.Err (FileClobberedError (Some (Errorf "SyncObject: " err)))
          /\ f' = f) as [-> ->]; [| auto].
  unfold inode.Sync in Hs. run_m.
  destruct (inode.content f) as [c|] eqn:Hc.
  2:{ simplify_eq. by apply elem_of_nil in Hin. }
  pose proof (clobbered_state w true true f) as [Hst Htr].
  destruct (inode.clobbered w true true f) as [[[[lo b]|e|] f1] t1] eqn:Hcl;
    run_m; simpl in Hst, Htr; subst f1 t1.
  2,3: simplify_eq; apply list_elem_of_singleton in Hin; discriminate.
  destruct b; simpl in Hs.
  { simplify_eq. apply list_elem_of_singleton in Hin; discriminate. }
  destruct (bucket_SyncObject w (GcsObjectName (inode.name f)) lo c)
        as [newObj [err'|]] eqn:Hb'.
  - assert (objName = GcsObjectName (inode.name f) /\ latest = lo /\ tf = c)
          as (-> & -> & ->).
    { destruct (As_PreconditionError err'); simplify_eq;
      apply elem_of_cons in Hin as [Hin|Hin]; try discriminate;
      apply list_elem_of_singleton in Hin; simplify_eq; auto. }
    rewrite Hb in Hb'. simplify_eq. rewrite Hp in Hs. by simplify_eq.
  - assert (objName = GcsObjectName (inode.name f) /\ latest = lo /\ tf = c)
          as (-> & -> & ->).
    { destruct (bool_decide (newObj <> None) && negb (inode.localFileCache f));
        [destruct (inode.IsLocal f)|]; simpl in Hs; simplify_eq;
        repeat (apply elem_of_cons in Hin as [Hin|Hin];
                    [simplify_eq; auto; try discriminate|]);
            try (by apply elem_of_nil in Hin). }
    rewrite Hb in Hb'. discriminate.
Qed.

Lemma Sync_precondition_is_clobbered_witness :
  let w := worldOf (Some (sampleObject 10 7 1)) []
             (None, None) (None, Some (PreconditionError "generation")) in
  let f := after w (OpTruncate 4) (tenBytes false) in
  outcome (inode.Sync w f)
  = inode.Err (FileClobberedError
                 (Some (Errorf "SyncObject: "
                          (PreconditionError "generation"))))
  /\ stateOf (inode.Sync w f) = f
  /\ inode.src (stateOf (inode.Sync w f)) = inode.src f.
Proof.
  intros w f.
  destruct (inode.Sync w f) as [[r f'] tr] eqn:Hs.
  refine (Sync_precondition_is_clobbered w f r f' tr
            (GcsObjectName (inode.name f))
            (Some (fullObject (sampleObject 10 7 1)))
            {| gcsx.tf_data := [Byte.x00; Byte.x00; Byte.x00; Byte.x00];
               gcsx.tf_mtime := Some 9000; gcsx.tf_destroyed := false |}
            None (PreconditionError "generation") Hs _ eq_refl eq_refl).
  vm_compute in Hs. injection Hs as _ _ <-.
  apply list_elem_of_In. simpl. right. left. reflexivity.
Defined.

(** ** Clobber detection *)

(** C6: [clobbered] stats the object.  When the stat fails with an error in
    which a not-found error is found, the answer is "clobbered" exactly when
    the inode is not local, and no error is returned.  When the stat
    succeeds, and returns the extended attributes if they were asked for,
    the answer is "clobbered" exactly when the generation pair of the
    object differs from that of the source record. *)
Theorem clobbered_iff w f force ext :
  (forall m e err,
      bucket_StatObject w (statRequest f force ext) = (m, e, Some err) ->
      As_NotFoundError err = true ->
      exists o,
        inode.clobbered w force ext f
        = (inode.Ok (o, negb (inode.local f)), f,
           [EvStatObject (statRequest f force ext)]))
  /\ (forall m e,
         bucket_StatObject w (statRequest f force ext) = (Some m, e, None) ->
         (ext = true -> e <> None) ->
         exists o b,
           inode.clobbered w force ext f
           = (inode.Ok (Some o, b), f,
              [EvStatObject (statRequest f force ext)])
           /\ gcs.min o = m
           /\ (b = true
               <-> (gcs.Generation m, gcs.MetaGeneration m)
                   <> (gcs.Generation (inode.src f),
                       gcs.MetaGeneration (inode.src f)))).
Proof.
  split.
  - intros m e err Hst Hnf. unfold inode.clobbered, statRequest in *.
    run_m. rewrite Hst, Hnf. unfold inode.IsLocal.
    destruct (inode.local f); simpl; eauto.
  - intros m e Hst He. unfold inode.clobbered, statRequest in *.
    run_m. rewrite Hst.
    assert (exists o,
               (if ext
                then storageutil.ConvertMinObjectAndExtendedObjectAttributesToObject
                       (Some m) e
                else storageutil.ConvertMinObjectToObject (Some m)) = Some o
               /\ gcs.min o = m) as (o & -> & Hm).
    { destruct ext; simpl.
      - destruct e as [e'|]; [eauto | by destruct He].
      - eauto. }
    eexists o, _. split; [reflexivity|]. split; [exact Hm|].
    rewrite Hm. unfold Compare, inode.SourceGeneration. simpl.
    rewrite negb_true_iff, Z.eqb_neq.
    repeat match goal with
           | |- context [?a <? ?b] => destruct (Z.ltb_spec a b)
           end; split; intros; try lia; try congruence.
    all: try (intros Heq; injection Heq as ? ?; lia).
    exfalso. match goal with H : _ <> _ |- _ => apply H end. f_equal; lia.
Qed.

(** ** SetMtime *)

(** C7: on the [UpdateObject] path of [SetMtime] the request is sent; when
    the bucket answers with an error in which a not-found or a precondition
    error is found, [SetMtime] returns no error and the inode is as before;
    when the bucket answers with an object, [SetMtime] returns no error and
    the object's minimal projection is the new source record, nothing else
    changing. *)
Theorem SetMtime_update_path w mtime f :
  onUpdatePath w f ->
  EvUpdateObject (mtimeRequest w mtime f) ∈ traceOf (inode.SetMtime w mtime f)
  /\ (forall o err,
         bucket_UpdateObject w (mtimeRequest w mtime f) = (o, Some err) ->
         As_NotFoundError err = true \/ As_PreconditionError err = true ->
         outcome (inode.SetMtime w mtime f) = inode.Ok tt
         /\ stateOf (inode.SetMtime w mtime f) = f)
  /\ (forall o,
         bucket_UpdateObject w (mtimeRequest w mtime f) = (Some o, None) ->
         outcome (inode.SetMtime w mtime f) = inode.Ok tt
         /\ stateOf (inode.SetMtime w mtime f) = inode.set_src (gcs.min o) f
         /\ inode.src (stateOf (inode.SetMtime w mtime f)) = gcs.min o).
Proof.
  intros (Hb & Hl & Hc).
  assert (Hrun : inode.SetMtime w mtime f
                 = let pre := match inode.content f with
                              | Some _ => [EvContentStat] | None => [] end in
                   match bucket_UpdateObject w (mtimeRequest w mtime f) with
                   | (o, None) =>
                       (inode.Ok tt,
                        inode.set_src
                          (match storageutil.ConvertObjToMinObject o with
                           | Some m => m | None => gcs.zeroMinObject end) f,
                        pre ++ [EvUpdateObject (mtimeRequest w mtime f)])
                   | (_, Some err) =>
                       (if As_NotFoundError err then inode.Ok tt
                        else if As_PreconditionError err then inode.Ok tt
                        else inode.Err (Errorf "UpdateObject: " err),
                        f, pre ++ [EvUpdateObject (mtimeRequest w mtime f)])
                   end).
  { unfold inode.SetMtime, inode.content_Stat, mtimeRequest,
      inode.SourceGeneration, inode.IsLocal. run_m.
    rewrite Hb, Hl.
    destruct (inode.content f) as [tf|]; simpl.
    - destruct Hc as [-> Hm]. simpl. rewrite Hm. simpl.
      destruct (bucket_UpdateObject w _) as [o [err|]]; simpl; [|reflexivity].
      destruct (As_NotFoundError err); [reflexivity|].
      destruct (As_PreconditionError err); reflexivity.
    - destruct (bucket_UpdateObject w _) as [o [err|]]; simpl; [|reflexivity].
      destruct (As_NotFoundError err); [reflexivity|].
      destruct (As_PreconditionError err); reflexivity. }
  rewrite Hrun. clear Hrun. cbv zeta.
  split; [|split].
  - destruct (bucket_UpdateObject w _) as [o [err|]];
      unfold traceOf; simpl; apply elem_of_app; right;
      apply list_elem_of_singleton; reflexivity.
  - intros o err -> Herr. unfold outcome, stateOf. simpl. split; [|reflexivity].
    destruct (As_NotFoundError err); [reflexivity|].
    destruct Herr as [Herr | ->]; [discriminate | reflexivity].
  - intros o ->. unfold outcome, stateOf. simpl. auto.
Qed.

Lemma SetMtime_update_path_witness :
  let w := worldOf (Some (sampleObject 10 7 1)) []
             (None, Some (PreconditionError "metageneration")) (None, None) in
  onUpdatePath w (tenBytes false)
  /\ outcome (inode.SetMtime w 1704164645000000006 (tenBytes false))
     = inode.Ok tt
  /\ stateOf (inode.SetMtime w 1704164645000000006 (tenBytes false))
     = tenBytes false.
Proof.
  intros w.
  assert (Hp : onUpdatePath w (tenBytes false)) by (repeat split).
  split; [exact Hp |].
  exact (proj1 (proj2 (SetMtime_update_path w 1704164645000000006
                         (tenBytes false) Hp))
           None (PreconditionError "metageneration") eq_refl
           (or_intror eq_refl)).
Defined.

(** ** Attributes *)

(** C8: in the attributes a successful [Attributes] returns, atime and
    ctime equal mtime; with a handler, size and mtime are those of its
    write-file info; otherwise with scratch content, the size is that of the
    scratch file and the mtime its dirty mtime if it has one, else the
    source's; otherwise both come from the source record. *)
Theorem Attributes_precedence w f a f' tr :
  inode.Attributes w f = (inode.Ok a, f', tr) ->
  fuseops.Atime a = fuseops.Mtime a
  /\ fuseops.Ctime a = fuseops.Mtime a
  /\ match inode.bwh f, inode.content f with
     | Some h, _ =>
         fuseops.Size a
         = uint64 (bufferedwrites.TotalSize (bufferedwrites.GetWriteFileInfo h))
         /\ fuseops.Mtime a
            = bufferedwrites.Mtime (bufferedwrites.GetWriteFileInfo h)
     | None, Some tf =>
         fuseops.Size a = uint64 (gcsx.sr_Size (gcsx.Stat tf))
         /\ fuseops.Mtime a
            = match gcsx.sr_Mtime (gcsx.Stat tf) with
              | Some t => t
              | None => sourceMtime w (inode.src f)
              end
     | None, None =>
         fuseops.Size a = gcs.Size (inode.src f)
         /\ fuseops.Mtime a = sourceMtime w (inode.src f)
     end.
Proof.
  unfold inode.Attributes, inode.content_Stat, sourceMtime. run_m.
  intros Ha.
  pose proof (clobbered_state w false false f) as [_ _].
  destruct (gcs.Metadata (inode.src f) !! "gcsfuse_mtime") as [fmt|];
    [destruct (time_Parse w fmt) as [t|e]; [|discriminate]|];
    (destruct (gcs.Metadata (inode.src f) !! "goog-reserved-file-mtime")
       as [s|]; [destruct (strconv_ParseInt w s) as [ts|]|]);
    (destruct (inode.content f) as [tf|];
     [destruct (content_err w); [discriminate|];
      simpl in Ha; destruct (gcsx.tf_mtime tf) as [mt|] eqn:Hmt|]);
    destruct (inode.bwh f) as [h|];
    simpl in Ha;
    destruct (inode.clobbered w false false f) as [[[[o b]|e|] f1] t1];
    simpl in Ha; try discriminate;
    destruct (b || inode.IsLocal f && inode.IsUnlinked f);
    simplify_eq; simpl; try rewrite Hmt; auto.
Qed.

Lemma Attributes_precedence_witness :
  let w := withParse 6000
             (worldOf (Some (sampleObject 10 7 1)) [] (None, None) (None, None)) in
  exists a,
    outcome (inode.Attributes w dirtyTwenty) = inode.Ok a
    /\ fuseops.Size a = 20
    /\ fuseops.Mtime a = 7777
    /\ fuseops.Atime a = 7777
    /\ fuseops.Ctime a = 7777
    /\ fuseops.Nlink a = 1.
Proof.
  intros w.
  destruct (inode.Attributes w dirtyTwenty) as [[r f'] tr] eqn:Ha.
  assert (Hr : exists a, r = inode.Ok a /\ fuseops.Nlink a = 1).
  { vm_compute in Ha. injection Ha as <- _ _. eexists. split; reflexivity. }
  destruct Hr as (a & -> & Hn).
  destruct (Attributes_precedence w dirtyTwenty a f' tr Ha) as (Hat & Hct & Hs & Hm).
  exists a. simpl in Hs, Hm.
  repeat split; [exact Hs | exact Hm | congruence | congruence | exact Hn].
Defined.

(** ** Sync: adopting the new object *)

(** C4 (as amended): when [Sync] returns success after [SyncObject]
    produced a new object, and the content cache is not in use
    ([localFileCache] false), the source record is the minimal projection of
    that object, the scratch file is destroyed and the content cleared, the
    local flag is false and [SourceGeneration] is the generation pair of the
    new object; with the content cache in use the inode is left as it
    was. *)
Theorem Sync_adopts_new_object w f f' tr objName latest tf newObj :
  inode.Sync w f = (inode.Ok tt, f', tr) ->
  EvSyncObject objName latest tf ∈ tr ->
  bucket_SyncObject w objName latest tf = (Some newObj, None) ->
  if inode.localFileCache f then f' = f
  else
    inode.src f' = gcs.min newObj
    /\ inode.content f' = None
    /\ EvContentDestroy ∈ tr
    /\ inode.local f' = false
    /\ inode.SourceGeneration f'
       = {| Object := gcs.Generation (gcs.min newObj);
            Metadata := gcs.MetaGeneration (gcs.min newObj) |}
    /\ inode.bwh f' = inode.bwh f.
Proof.
  intros Hs Hin Hb.
  unfold inode.Sync in Hs. run_m.
  destruct (inode.content f) as [c|] eqn:Hc.
  2:{ simplify_eq. by apply elem_of_nil in Hin. }
  pose proof (clobbered_state w true true f) as [Hst Htr].
  destruct (inode.clobbered w true true f) as [[[[lo b]|e|] f1] t1] eqn:Hcl;
    run_m; simpl in Hst, Htr; subst f1 t1; [|discriminate..].
  destruct b; simpl in Hs; [discriminate|].
  destruct (bucket_SyncObject w (GcsObjectName (inode.name f)) lo c)
    as [o [err'|]] eqn:Hb'.
  { destruct (As_PreconditionError err'); discriminate. }
  assert (objName = GcsObjectName (inode.name f) /\ latest = lo /\ tf = c)
    as (-> & -> & ->).
  { destruct (bool_decide (o <> None) && negb (inode.localFileCache f));
      [destruct (inode.IsLocal f)|]; simpl in Hs; simplify_eq;
      repeat (apply elem_of_cons in Hin as [Hin|Hin];
              [simplify_eq; auto; try discriminate|]);
      try (by apply elem_of_nil in Hin). }
  rewrite Hb in Hb'. simplify_eq.
  rewrite bool_decide_true in Hs by discriminate. simpl in Hs.
  destruct (inode.localFileCache f) eqn:Hlfc; simpl in Hs.
  { by simplify_eq. }
  unfold inode.IsLocal in Hs.
  destruct (inode.local f) eqn:Hl; simpl in Hs; simplify_eq; simpl;
    repeat split; auto;
    apply list_elem_of_In; simpl; auto.
Qed.

Lemma Sync_adopts_new_object_witness :
  let f := truncatedTo4 false in
  outcome (inode.Sync syncWorld f) = inode.Ok tt
  /\ inode.src (stateOf (inode.Sync syncWorld f)) = sampleObject 4 8 1
  /\ inode.content (stateOf (inode.Sync syncWorld f)) = None
  /\ inode.local (stateOf (inode.Sync syncWorld f)) = false
  /\ inode.SourceGeneration (stateOf (inode.Sync syncWorld f))
     = {| Object := 8; Metadata := 1 |}.
Proof.
  intros f.
  destruct (inode.Sync syncWorld f) as [[r f'] tr] eqn:Hs.
  assert (Hr : r = inode.Ok tt
               /\ EvSyncObject "dir/file.txt"
                    (Some (fullObject (sampleObject 10 7 1)))
                    {| gcsx.tf_data := [Byte.x00; Byte.x00; Byte.x00; Byte.x00];
                       gcsx.tf_mtime := Some 9000;
                       gcsx.tf_destroyed := false |} ∈ tr).
  { vm_compute in Hs. injection Hs as <- _ <-. split; [reflexivity|].
    apply list_elem_of_In. simpl. auto. }
  destruct Hr as [-> Hin].
  pose proof (Sync_adopts_new_object syncWorld f f' tr _ _ _
                (fullObject (sampleObject 4 8 1)) Hs Hin eq_refl) as H.
  simpl in H. destruct H as (H1 & H2 & _ & H3 & H4 & _).
  unfold outcome, stateOf. simpl. auto.
Defined.

(** C4 (as stated) fails with the content cache in use: [Sync] returns
    success after [SyncObject] produced generation (8, 1), and the inode
    still has its scratch content and the source generation (7, 1). *)
Lemma Sync_with_cache_keeps_source :
  let f := truncatedTo4 true in
  outcome (inode.Sync syncWorld f) = inode.Ok tt
  /\ bucket_SyncObject syncWorld "dir/file.txt"
       (Some (fullObject (sampleObject 10 7 1)))
       {| gcsx.tf_data := [Byte.x00; Byte.x00; Byte.x00; Byte.x00];
          gcsx.tf_mtime := Some 9000; gcsx.tf_destroyed := false |}
     = (Some (fullObject (sampleObject 4 8 1)), None)
  /\ traceOf (inode.Sync syncWorld f)
     = [EvStatObject (statRequest f true true);
        EvSyncObject "dir/file.txt"
          (Some (fullObject (sampleObject 10 7 1)))
          {| gcsx.tf_data := [Byte.x00; Byte.x00; Byte.x00; Byte.x00];
             gcsx.tf_mtime := Some 9000; gcsx.tf_destroyed := false |}]
  /\ stateOf (inode.Sync syncWorld f) = f
  /\ backing (stateOf (inode.Sync syncWorld f)) = Scratch
  /\ inode.SourceGeneration (stateOf (inode.Sync syncWorld f))
     = {| Object := 7; Metadata := 1 |}.
Proof. vm_compute. repeat split. Qed.

(** ** Write *)

(** [ensureContent] never panics, only ever sets the content, fetches and
    does nothing else, and on success there is content. *)
Lemma ensureContent_frame w f r f1 t1 :
  inode.ensureContent w f = (r, f1, t1) ->
  r <> inode.Panic
  /\ (f1 = f \/ exists tf, f1 = inode.set_content (Some tf) f)
  /\ (r = inode.Ok tt -> inode.content f1 <> None)
  /\ (forall e, r = inode.Err e -> f1 = f)
  /\ forallb isFetch t1 = true.
Proof.
  unfold inode.ensureContent, inode.openReader. run_m.
  repeat (split_goal; run_m; simpl);
    intros; simplify_eq; simpl;
    repeat split; eauto; try discriminate; try congruence.
Qed.

Lemma Write_handler w data offset f h :
  inode.bwh f = Some h ->
  inode.Write w data offset f
  = match bufferedwrites.Write (upload_err w) h data offset with
    | ROk h' => (inode.Ok tt, inode.set_bwh (Some h') f, [EvBwhWrite data offset])
    | RErr e => (inode.Err e, f, [EvBwhWrite data offset])
    end.
Proof.
  intros Hb. unfold inode.Write, inode.ensureBufferedWriteHandler. run_m.
  destruct ((gcs.Size (inode.src f) =? 0)
            && cfg.ExperimentalEnableStreamingWrites (inode.writeConfig f));
    rewrite Hb; simpl; rewrite ?Hb;
    destruct (bufferedwrites.Write (upload_err w) h data offset); reflexivity.
Qed.

Lemma Write_creates w data offset f :
  inode.bwh f = None ->
  gcs.Size (inode.src f) = 0 ->
  streamingWrites f = true ->
  NewBWHandler_err w = None ->
  let h0 := bufferedwrites.SetMtime bufferedwrites.newBWHandler (clock_Now w) in
  let tr := [EvNewBWHandler (GcsObjectName (inode.name f));
             EvBwhSetMtime (clock_Now w); EvBwhWrite data offset] in
  inode.Write w data offset f
  = match bufferedwrites.Write (upload_err w) h0 data offset with
    | ROk h' => (inode.Ok tt, inode.set_bwh (Some h') f, tr)
    | RErr e => (inode.Err e, inode.set_bwh (Some h0) f, tr)
    end.
Proof.
  unfold streamingWrites. intros Hb Hs Hf Hn.
  unfold inode.Write, inode.ensureBufferedWriteHandler. run_m.
  rewrite Hs, Hf. simpl. run_m. rewrite Hb, Hn. simpl.
  destruct (bufferedwrites.Write _ _ _ _); reflexivity.
Qed.

Lemma Write_creation_fails w data offset f e :
  inode.bwh f = None ->
  gcs.Size (inode.src f) = 0 ->
  streamingWrites f = true ->
  NewBWHandler_err w = Some e ->
  inode.Write w data offset f
  = (inode.Err (Errorf "failed to create bufferedWriteHandler: " e), f,
     [EvNewBWHandler (GcsObjectName (inode.name f))]).
Proof.
  unfold streamingWrites. intros Hb Hs Hf Hn.
  unfold inode.Write, inode.ensureBufferedWriteHandler. run_m.
  rewrite Hs, Hf. simpl. run_m. rewrite Hb, Hn. simpl. rewrite ?Hn. reflexivity.
Qed.

Lemma Write_scratch w data offset f :
  inode.bwh f = None ->
  (gcs.Size (inode.src f) =? 0) && streamingWrites f = false ->
  inode.Write w data offset f
  = match inode.ensureContent w f with
    | (inode.Ok _, f1, t1) => writeToScratch w data offset f1 t1
    | (inode.Err e, f1, t1) => (inode.Err (Errorf "ensureContent: " e), f1, t1)
    | (inode.Panic, f1, t1) => (inode.Panic, f1, t1)
    end.
Proof.
  unfold streamingWrites. intros Hb Hc.
  unfold inode.Write, writeToScratch. run_m. rewrite Hc, Hb.
  destruct (inode.ensureContent w f) as [[[[]|e|] f1] t1]; try reflexivity.
  destruct (inode.content f1); [|by rewrite app_nil_r].
  destruct (content_err w); reflexivity.
Qed.

Lemma fetch_not_handler t :
  forallb isFetch t = true ->
  forall ev, ev ∈ t -> isHandlerCall ev = false.
Proof.
  intros Ht ev Hin. rewrite forallb_forall in Ht.
  apply list_elem_of_In, Ht in Hin. destruct ev; try discriminate; reflexivity.
Qed.

(** C2 (as amended): [Write] hands the data to the handler, and the inode
    has a handler afterwards, exactly when a handler exists already, or the
    source size is 0, streaming writes are configured and the handler can be
    created (whether or not the inode is pristine or local); then it calls
    nothing but the handler and leaves the content alone.  Otherwise, if the
    source is empty and streaming writes are configured, the creation of the
    handler failed and [Write] returns that error with the inode untouched; in every
    remaining case [Write] runs [ensureContent] and, when that succeeds,
    writes to the scratch file. *)
Theorem Write_dispatch w data offset f :
  (writesToHandler w f
   <-> EvBwhWrite data offset ∈ traceOf (inode.Write w data offset f))
  /\ (writesToHandler w f
      <-> is_Some (inode.bwh (stateOf (inode.Write w data offset f))))
  /\ (writesToHandler w f ->
      forallb isHandlerCall (traceOf (inode.Write w data offset f)) = true
      /\ inode.content (stateOf (inode.Write w data offset f))
         = inode.content f)
  /\ (~ writesToHandler w f ->
      if (gcs.Size (inode.src f) =? 0) && streamingWrites f
      then exists e,
          NewBWHandler_err w = Some e
          /\ inode.Write w data offset f
             = (inode.Err (Errorf "failed to create bufferedWriteHandler: " e),
                f, [EvNewBWHandler (GcsObjectName (inode.name f))])
      else
        match inode.ensureContent w f with
        | (inode.Ok _, f1, t1) =>
            inode.content f1 <> None
            /\ inode.Write w data offset f = writeToScratch w data offset f1 t1
        | (inode.Err e, f1, t1) =>
            inode.Write w data offset f
            = (inode.Err (Errorf "ensureContent: " e), f1, t1)
        | (inode.Panic, _, _) => False
        end).
Proof.
  destruct (inode.bwh f) as [h|] eqn:Hb.
  { (* a handler exists *)
    assert (Hw : writesToHandler w f) by (left; congruence).
    rewrite (Write_handler w data offset f h Hb).
    destruct (bufferedwrites.Write (upload_err w) h data offset) as [h'|e];
      unfold traceOf, stateOf; simpl; rewrite ?Hb;
      (split; [split; [intros _; apply list_elem_of_singleton; reflexivity
                      | intros _; exact Hw]|]);
      (split; [split; [intros _; eauto | intros _; exact Hw]|]);
      (split; [intros _; auto | intros Hn; destruct (Hn Hw)]). }
  destruct (gcs.Size (inode.src f) =? 0) eqn:Hs;
    [apply Z.eqb_eq in Hs; destruct (streamingWrites f) eqn:Hf;
     [destruct (NewBWHandler_err w) as [e|] eqn:Hn|]|].
  - (* the handler cannot be created *)
    assert (Hw : ~ writesToHandler w f).
    { intros [H | (_ & _ & H)]; congruence. }
    rewrite (Write_creation_fails w data offset f e Hb Hs Hf Hn).
    unfold traceOf, stateOf; simpl. rewrite Hb.
    split; [split; [intros H; destruct (Hw H)
                   | intros H; apply list_elem_of_singleton in H; discriminate]|].
    split; [split; [intros H; destruct (Hw H) | intros [? ?]; discriminate]|].
    split; [intros H; destruct (Hw H) | intros _; eauto].
  - (* the handler is created *)
    assert (Hw : writesToHandler w f) by (right; auto).
    rewrite (Write_creates w data offset f Hb Hs Hf Hn). cbv zeta.
    destruct (bufferedwrites.Write _ _ _ _) as [h'|e];
      unfold traceOf, stateOf; simpl;
      (split; [split; [intros _; apply list_elem_of_In; simpl; auto
                      | intros _; exact Hw]|]);
      (split; [split; [intros _; eauto | intros _; exact Hw]|]);
      (split; [intros _; auto | intros Hn'; destruct (Hn' Hw)]).
  - (* streaming writes are not configured *)
    assert (Hw : ~ writesToHandler w f).
    { intros [H | (_ & H & _)]; congruence. }
    rewrite (Write_scratch w data offset f Hb) by (rewrite Hf; apply andb_false_r).
    destruct (inode.ensureContent w f) as [[r f1] t1] eqn:He.
    destruct (ensureContent_frame w f r f1 t1 He) as (Hp & Hst & Hok & _ & Hft).
    assert (Hb1 : inode.bwh f1 = None).
    { destruct Hst as [-> | [tf ->]]; simpl; exact Hb. }
    pose proof (fetch_not_handler t1 Hft) as Hnh.
    destruct r as [[]|e|]; [| |congruence].
    + specialize (Hok eq_refl). unfold writeToScratch.
      destruct (inode.content f1) as [tf|]; [|congruence].
      destruct (content_err w); unfold traceOf, stateOf; simpl; rewrite ?Hb1;
        (split; [split; [intros H; destruct (Hw H)
                        | intros H; apply elem_of_app in H as [H|H];
                          [apply Hnh in H; discriminate
                          | apply list_elem_of_singleton in H; discriminate]]|]);
        (split; [split; [intros H; destruct (Hw H) | intros [? ?]; discriminate]|]);
        (split; [intros H; destruct (Hw H) | intros _; auto]).
    + unfold traceOf, stateOf; simpl; rewrite ?Hb1.
      split; [split; [intros H; destruct (Hw H)
                     | intros H; apply Hnh in H; discriminate]|].
      split; [split; [intros H; destruct (Hw H) | intros [? ?]; discriminate]|].
      split; [intros H; destruct (Hw H) | intros _; auto].
  - (* the source is not empty *)
    assert (Hw : ~ writesToHandler w f).
    { apply Z.eqb_neq in Hs. intros [H | (H & _ & _)]; congruence. }
    rewrite (Write_scratch w data offset f Hb) by (rewrite Hs; reflexivity).
    destruct (inode.ensureContent w f) as [[r f1] t1] eqn:He.
    destruct (ensureContent_frame w f r f1 t1 He) as (Hp & Hst & Hok & _ & Hft).
    assert (Hb1 : inode.bwh f1 = None).
    { destruct Hst as [-> | [tf ->]]; simpl; exact Hb. }
    pose proof (fetch_not_handler t1 Hft) as Hnh.
    destruct r as [[]|e|]; [| |congruence].
    + specialize (Hok eq_refl). unfold writeToScratch.
      destruct (inode.content f1) as [tf|]; [|congruence].
      destruct (content_err w); unfold traceOf, stateOf; simpl; rewrite ?Hb1;
        (split; [split; [intros H; destruct (Hw H)
                        | intros H; apply elem_of_app in H as [H|H];
                          [apply Hnh in H; discriminate
                          | apply list_elem_of_singleton in H; discriminate]]|]);
        (split; [split; [intros H; destruct (Hw H) | intros [? ?]; discriminate]|]);
        (split; [intros H; destruct (Hw H) | intros _; auto]).
    + unfold traceOf, stateOf; simpl; rewrite ?Hb1.
      split; [split; [intros H; destruct (Hw H)
                     | intros H; apply Hnh in H; discriminate]|].
      split; [split; [intros H; destruct (Hw H) | intros [? ?]; discriminate]|].
      split; [intros H; destruct (Hw H) | intros _; auto].
Qed.

(** C2 (as stated) fails: on an inode over an empty object whose scratch is
    already materialized (so not pristine) [Write] creates a handler, hands
    the data to it and writes nothing to the scratch file. *)
Lemma Write_streams_from_scratch :
  let w := worldOf (Some (sampleObject 0 7 1)) [] (None, None) (None, None) in
  backing emptyRemoteRead = Scratch
  /\ ~ streamingEligible emptyRemoteRead
  /\ outcome (inode.Write w hello 0 emptyRemoteRead) = inode.Ok tt
  /\ traceOf (inode.Write w hello 0 emptyRemoteRead)
     = [EvNewBWHandler "dir/file.txt"; EvBwhSetMtime 9000; EvBwhWrite hello 0]
  /\ backing (stateOf (inode.Write w hello 0 emptyRemoteRead))
     = ScratchAndStreaming
  /\ inode.content (stateOf (inode.Write w hello 0 emptyRemoteRead))
     = inode.content emptyRemoteRead.
Proof.
  cbv zeta. split; [reflexivity|]. split.
  { intros (H & _). vm_compute in H. discriminate. }
  vm_compute. repeat split.
Qed.

(** ** Reachable states *)

(** No operation changes the write configuration, and without streaming
    writes no operation creates a handler. *)
Lemma exec_frame w op f r f' tr :
  exec w op f = (r, f', tr) ->
  inode.writeConfig f' = inode.writeConfig f
  /\ (streamingWrites f = false -> inode.bwh f = None -> inode.bwh f' = None).
Proof.
  pose proof (ensureContent_frame w f) as Hec.
  pose proof (clobbered_state w true true f) as [Hcs _].
  destruct (inode.ensureContent w f) as [[r1 f1] t1] eqn:Hen.
  destruct (Hec _ _ _ eq_refl) as (_ & Hf1 & _).
  destruct (inode.clobbered w true true f) as [[r2 f2] t2] eqn:Hcl.
  unfold stateOf in Hcs. simpl in Hcs. subst f2.
  clear Hec.
  intros Hex.
  destruct op; unfold exec, inode.Read, inode.Write, inode.Truncate, inode.SetMtime,
    inode.Sync, inode.CreateBufferedOrTempWriter, inode.Destroy,
    inode.ensureBufferedWriteHandler, inode.content_Stat, streamingWrites in *;
    run_m.
  all: repeat (first [ rewrite Hen in Hex | rewrite Hcl in Hex | idtac ];
               run_m; simpl in Hex; try split_hyp).
  all: simplify_eq; simpl.
  all: try (destruct Hf1 as [-> | [tf' ->]]; simpl).
  all: try (split; [reflexivity | intros; congruence]).
  all: split; [reflexivity | intros Hoff _];
    rewrite Hoff, andb_false_r in *; discriminate.
Qed.

Lemma reachable_after w op f :
  reachable f ->
  outcome (exec w op f) <> inode.Panic ->
  reachable (after w op f).
Proof.
  unfold outcome, after. intros Hr Hp.
  destruct (exec w op f) as [[r f'] tr] eqn:He. simpl in *.
  exact (reachable_step f w op r f' tr Hr He Hp).
Qed.

Lemma step_exclusive w op f :
  atMostOne f ->
  atMostOne (after w op f) <-> mixes w op f = false.
Proof.
  intros Hone. unfold after.
  destruct (exec w op f) as [[r f'] tr] eqn:Hex. simpl.
  pose proof (ensureContent_frame w f) as Hec.
  pose proof (clobbered_state w true true f) as [Hcs _].
  unfold stateOf in Hcs.
  unfold atMostOne, mixes, streamingWrites, outcome in *.
  destruct op; exec_paths Hex w f Hen Hcl;
    try (simpl in Hcs; subst);
    try (destruct (Hec _ _ _ eq_refl) as (Hnp & [-> | [? ->]] & Hok & Herr & _));
    simpl in *;
    repeat match goal with
           | H : ?x = _ |- context [?x] => rewrite H
           end; simpl.
  all: repeat match goal with
              | |- context [match ?x with _ => _ end] => destruct x eqn:?
              end; simpl in *.
  all: try (split; [reflexivity | intros _]; first [exact Hone | by right | by left]).
  all: try (split; [intros [?|?]; discriminate | discriminate]).
  all: try (exfalso; first [by apply Hnp | by apply Hok | congruence]).
  all: try (destruct Hone; congruence).
  all: try match goal with a : unit |- _ => destruct a end.
  all: try (exfalso; first [by apply Hok | congruence]).
  all: try (specialize (Herr _ eq_refl);
            apply (f_equal inode.content) in Herr; simpl in Herr;
            destruct Hone; congruence).
  all: split; [reflexivity | intros _];
    destruct Hone as [H|H];
    [ first [left; exact H | congruence]
    | first [right; exact H | congruence] ].
Qed.

(** In a run whose steps do not mix the backings, at most one backing is
    materialized. *)
Lemma unmixed_exclusive f : reachableUnmixed f -> atMostOne f.
Proof.
  induction 1 as [| f w op r f' tr _ IH Hmix Hex _].
  - right. reflexivity.
  - pose proof (proj2 (step_exclusive w op f IH) Hmix) as Hone.
    unfold after in Hone. rewrite Hex in Hone. exact Hone.
Qed.

(** Without streaming writes no reachable state has a handler, and no step
    mixes the backings. *)
Lemma reachable_without_streaming f :
  reachable f ->
  streamingWrites f = false ->
  inode.bwh f = None /\ reachableUnmixed f.
Proof.
  intros Hr. induction Hr as [| f w op r f' tr Hr IH He Hp]; intros Hoff.
  - split; [reflexivity | constructor].
  - destruct (exec_frame w op f r f' tr He) as [Hcfg Hbwh].
    assert (Hoff' : streamingWrites f = false).
    { unfold streamingWrites in *. rewrite <- Hcfg. exact Hoff. }
    destruct (IH Hoff') as [Hb Hu].
    split; [exact (Hbwh Hoff' Hb)|].
    refine (unmixed_step f w op r f' tr Hu _ He Hp).
    unfold mixes. rewrite Hb, Hoff'.
    destruct op; try reflexivity.
    + destruct (inode.content f); [|reflexivity].
      destruct (NewBWHandler_err w); [reflexivity | apply andb_false_r].
    + rewrite andb_false_r. reflexivity.
Qed.


Lemma unmixed_after w op f :
  reachableUnmixed f ->
  mixes w op f = false ->
  outcome (exec w op f) <> inode.Panic ->
  reachableUnmixed (after w op f).
Proof.
  unfold outcome, after. intros Hr Hm Hp.
  destruct (exec w op f) as [[r f'] tr] eqn:He. simpl in *.
  exact (unmixed_step f w op r f' tr Hr Hm He Hp).
Qed.

(** C3 (as amended): in every state reached by a run of the public
    operations none of whose steps puts a second backing beside the one the
    inode has, at most one of scratch content and handler is materialized,
    with streaming writes configured or not.  The steps in question are a
    [Write] that creates a handler beside scratch content, a [Truncate] that
    materializes scratch content beside a handler, and a
    [CreateBufferedOrTempWriter] that creates a handler beside scratch content
    or an empty scratch file beside a handler; from a state with at most one
    backing, a step ends with both exactly when it is one of them.  When
    streaming writes are not configured there is no such step and no
    reachable state has a handler. *)
Theorem reachable_exclusive_unless_mixed :
  (forall f, reachableUnmixed f -> atMostOne f)
  /\ (forall w op f,
         atMostOne f ->
         atMostOne (after w op f) <-> mixes w op f = false)
  /\ (forall f,
         reachable f ->
         streamingWrites f = false ->
         inode.bwh f = None /\ reachableUnmixed f /\ atMostOne f).
Proof.
  split; [exact unmixed_exclusive|]. split; [exact step_exclusive|].
  intros f Hr Hoff.
  destruct (reachable_without_streaming f Hr Hoff) as [Hb Hu].
  split; [exact Hb|]. split; [exact Hu | right; exact Hb].
Qed.

Lemma reachable_exclusive_unless_mixed_witness :
  let w := worldOf None [] (None, None) (None, None) in
  let f := execs [(w, OpCreateBufferedOrTempWriter); (w, OpWrite hello 0);
                  (w, OpWrite hello 5); (w, OpSetMtime 4242); (w, OpSync)]
             newLocal in
  streamingWrites f = true
  /\ backing f = Streaming
  /\ atMostOne f.
Proof.
  intros w f. split; [reflexivity|]. split; [reflexivity|].
  apply (proj1 reachable_exclusive_unless_mixed).
  unfold f, execs. simpl.
  repeat (apply unmixed_after; [| reflexivity | vm_compute; discriminate]).
  apply unmixed_new.
Defined.

(** C3 (as stated) fails: with streaming writes configured, a read followed
    by a write on an inode over an empty object is a run of public
    operations that ends with scratch content and handler both
    materialized. *)
Lemma reachable_scratch_and_streaming :
  let w := worldOf (Some (sampleObject 0 7 1)) [] (None, None) (None, None) in
  let f := after w (OpWrite hello 0) (after w (OpRead 4 0) emptyRemote) in
  reachable f
  /\ backing f = ScratchAndStreaming
  /\ is_Some (inode.content f)
  /\ is_Some (inode.bwh f)
  /\ ~ atMostOne f.
Proof.
  intros w f. split.
  { apply reachable_after; [| vm_compute; discriminate].
    apply reachable_after; [| vm_compute; discriminate].
    apply reachable_new. }
  split; [reflexivity|].
  split; [vm_compute; eauto|].
  split; [vm_compute; eauto|].
  intros [H | H]; vm_compute in H; discriminate.
Qed.

(** ** The type cache *)

Section LruFacts.
Context {V : Type} `{lru.ValueType V}.

Lemma assoc_remove_eq key (l : list (string * V)) :
  lru.assoc key (lru.remove key l) = None.
Proof.
  induction l as [|[k v] l IH]; simpl; [reflexivity|].
  destruct (decide (k = key)); simpl; [exact IH|].
  destruct (decide (k = key)); [contradiction | exact IH].
Qed.

Lemma assoc_remove_ne key n (l : list (string * V)) :
  n <> key -> lru.assoc n (lru.remove key l) = lru.assoc n l.
Proof.
  intros Hne. induction l as [|[k v] l IH]; simpl; [reflexivity|].
  destruct (decide (k = key)) as [->|]; simpl.
  - destruct (decide (key = n)); [congruence | exact IH].
  - destruct (decide (k = n)); [reflexivity | exact IH].
Qed.

Lemma assoc_prefix n (l1 l2 : list (string * V)) v :
  l1 `prefix_of` l2 -> lru.assoc n l1 = Some v -> lru.assoc n l2 = Some v.
Proof.
  intros [k ->]. induction l1 as [|[k' x] l1 IH]; simpl; [discriminate|].
  destruct (decide (k' = n)); auto.
Qed.

Lemma removelast_prefix (l : list (string * V)) : removelast l `prefix_of` l.
Proof.
  induction l as [|a l IH]; [reflexivity|].
  destruct l as [|b l]; [apply prefix_nil|].
  change (removelast (a :: b :: l)) with (a :: removelast (b :: l)).
  by apply prefix_cons.
Qed.

Lemma evict_prefix fuel maxSize (l : list (string * V)) :
  lru.evict fuel maxSize l `prefix_of` l.
Proof.
  revert l. induction fuel as [|fuel IH]; intros l; simpl; [reflexivity|].
  destruct (maxSize <? lru.currentSize l); [|reflexivity].
  etrans; [apply IH | apply removelast_prefix].
Qed.

(** The entry just inserted is not evicted when it fits and no size is
    negative. *)
Lemma evict_keeps_head fuel maxSize key v (l : list (string * V)) :
  (forall x, 0 <= lru.Size x) ->
  lru.Size v <= maxSize ->
  exists l', lru.evict fuel maxSize ((key, v) :: l) = (key, v) :: l'.
Proof.
  intros Hpos Hfit. revert l. induction fuel as [|fuel IH]; intros l; simpl.
  - eauto.
  - destruct (maxSize <? lru.Size v + lru.currentSize l) eqn:Hlt; [|eauto].
    destruct l as [|b l].
    + simpl in Hlt. apply Z.ltb_lt in Hlt. lia.
    + apply IH.
Qed.

Lemma assoc_Insert_eq key v (c : lru.Cache V) :
  (forall x, 0 <= lru.Size x) ->
  lru.Size v <= lru.maxSize c ->
  lru.assoc key (lru.entries (lru.Insert key v c)) = Some v.
Proof.
  intros Hpos Hfit. unfold lru.Insert.
  destruct (lru.maxSize c <? lru.Size v) eqn:Hlt.
  { apply Z.ltb_lt in Hlt. lia. }
  cbn [lru.entries].
  destruct (evict_keeps_head (length ((key, v) :: lru.remove key (lru.entries c)))
              (lru.maxSize c) key v (lru.remove key (lru.entries c)) Hpos Hfit)
    as [l' ->].
  simpl. destruct (decide (key = key)); [reflexivity | contradiction].
Qed.

(** After an insert, an entry found under a name is the inserted one, or
    was there before under another name, or the insert was refused. *)
Lemma assoc_Insert_inv key v n e (c : lru.Cache V) :
  lru.assoc n (lru.entries (lru.Insert key v c)) = Some e ->
  (n = key /\ e = v)
  \/ (n <> key /\ lru.assoc n (lru.entries c) = Some e)
  \/ (lru.maxSize c < lru.Size v /\ lru.assoc n (lru.entries c) = Some e).
Proof.
  unfold lru.Insert. destruct (lru.maxSize c <? lru.Size v) eqn:Hlt.
  { apply Z.ltb_lt in Hlt. auto. }
  cbn [lru.entries]. intros Ha.
  eapply assoc_prefix in Ha; [|apply evict_prefix].
  simpl in Ha. destruct (decide (key = n)) as [->|Hne].
  - left. split; congruence.
  - right. left. split; [congruence|]. by rewrite assoc_remove_ne in Ha.
Qed.

Lemma LookUp_value key (c : lru.Cache V) :
  fst (lru.LookUp key c) = lru.assoc key (lru.entries c).
Proof.
  unfold lru.LookUp. destruct (lru.assoc key (lru.entries c)); reflexivity.
Qed.

Lemma assoc_LookUp key n (c : lru.Cache V) :
  lru.assoc n (lru.entries (snd (lru.LookUp key c)))
  = lru.assoc n (lru.entries c).
Proof.
  unfold lru.LookUp. destruct (lru.assoc key (lru.entries c)) as [v|] eqn:Hk;
    [|reflexivity].
  simpl. destruct (decide (key = n)) as [->|Hne]; [by rewrite Hk|].
  by rewrite assoc_remove_ne.
Qed.

Lemma maxSize_LookUp key (c : lru.Cache V) :
  lru.maxSize (snd (lru.LookUp key c)) = lru.maxSize c.
Proof.
  unfold lru.LookUp. destruct (lru.assoc key (lru.entries c)); reflexivity.
Qed.

Lemma maxSize_Insert key v (c : lru.Cache V) :
  lru.maxSize (lru.Insert key v c) = lru.maxSize c.
Proof.
  unfold lru.Insert. destruct (lru.maxSize c <? lru.Size v); reflexivity.
Qed.

End LruFacts.

Lemma run_snoc cs c tc :
  typecache.run (cs ++ [c]) tc = typecache.call c (typecache.run cs tc).
Proof. unfold typecache.run. by rewrite fold_left_app. Qed.

Lemma lastInsert_snoc name cs c :
  typecache.lastInsert name (cs ++ [c])
  = match c with
    | typecache.CallInsert now n it =>
        if decide (n = name) then Some (now, it)
        else typecache.lastInsert name cs
    | _ => typecache.lastInsert name cs
    end.
Proof.
  induction cs as [|a cs IH]; simpl.
  - destruct c as [now n it| |]; reflexivity.
  - rewrite IH. destruct c as [now n it| |]; try reflexivity.
    destruct (decide (n = name)); reflexivity.
Qed.

Lemma Get_state now name tc :
  typecache.ttl (snd (typecache.Get now name tc)) = typecache.ttl tc
  /\ lru.maxSize (typecache.entries (snd (typecache.Get now name tc)))
     = lru.maxSize (typecache.entries tc)
  /\ forall n e,
      lru.assoc n (lru.entries
                     (typecache.entries (snd (typecache.Get now name tc))))
      = Some e ->
      lru.assoc n (lru.entries (typecache.entries tc)) = Some e.
Proof.
  unfold typecache.Get.
  pose proof (fun n => assoc_LookUp name n (typecache.entries tc)) as Hl.
  pose proof (maxSize_LookUp name (typecache.entries tc)) as Hm.
  destruct (lru.LookUp name (typecache.entries tc)) as [[entry|] c'] eqn:Hlk;
    [|auto].
  simpl in Hm.
  destruct (typecache.expiry entry <? now); simpl; (split; [reflexivity|]);
    (split; [exact Hm|]); intros n e Ha.
  - destruct (decide (n = name)) as [->|Hne].
    + by rewrite assoc_remove_eq in Ha.
    + rewrite assoc_remove_ne in Ha by done.
      specialize (Hl n). simpl in Hl. congruence.
  - specialize (Hl n). simpl in Hl. congruence.
Qed.

Lemma call_consistent ttl0 maxSize0 cs c tc :
  consistent ttl0 maxSize0 cs tc ->
  consistent ttl0 maxSize0 (cs ++ [c]) (typecache.call c tc).
Proof.
  intros (Httl & Hmax & Hempty & Hent).
  destruct c as [now name it | name | now name]; cbn [typecache.call].
  - (* Insert *)
    unfold typecache.Insert. destruct (typecache.ttl tc =? 0) eqn:Hz.
    + apply Z.eqb_eq in Hz.
      assert (He : lru.entries (typecache.entries tc) = [])
        by (apply Hempty; left; congruence).
      repeat split; auto. intros n e Ha. rewrite He in Ha. discriminate.
    + apply Z.eqb_neq in Hz. unfold consistent.
      cbn [typecache.ttl typecache.entries].
      split; [exact Httl|]. split; [by rewrite maxSize_Insert|].
      split.
      * intros [Hz' | Hsmall]; [congruence|].
        unfold lru.Insert. rewrite Hmax.
        change (lru.Size _) with 32.
        destruct (maxSize0 <? 32) eqn:Hlt; [apply Hempty; auto|].
        apply Z.ltb_ge in Hlt. lia.
      * intros n e Ha. rewrite lastInsert_snoc.
        apply assoc_Insert_inv in Ha as [[-> ->] | [[Hne Ha] | [Hsmall Ha]]].
        -- destruct (decide (name = name)); [|contradiction].
           simpl. rewrite Httl. eauto.
        -- destruct (decide (name = n)); [congruence|]. by apply Hent.
        -- change (lru.Size _) with 32 in Hsmall. rewrite Hmax in Hsmall.
           rewrite Hempty in Ha by auto. discriminate.
  - (* Erase *)
    unfold typecache.Erase, lru.Erase. simpl.
    repeat split; auto.
    + intros Hc. simpl. by rewrite Hempty.
    + intros n e Ha. simpl in Ha. rewrite lastInsert_snoc.
      destruct (decide (n = name)) as [->|Hne].
      * by rewrite assoc_remove_eq in Ha.
      * rewrite assoc_remove_ne in Ha by done. by apply Hent.
  - (* Get *)
    destruct (Get_state now name tc) as (Ht & Hm & Ha).
    split; [congruence|]. split; [congruence|]. split.
    + intros Hc. specialize (Hempty Hc).
      unfold typecache.Get, lru.LookUp. rewrite Hempty. simpl. exact Hempty.
    + intros n e Hn. rewrite lastInsert_snoc. apply Hent, Ha, Hn.
Qed.

Lemma run_consistent sizeInMb ttl0 tc0 cs :
  typecache.newTypeCache sizeInMb ttl0 = Some tc0 ->
  consistent ttl0
    (uint64 (uint64 typecache.MiBtoBytes * uint64 sizeInMb))
    cs (typecache.run cs tc0).
Proof.
  unfold typecache.newTypeCache. destruct (sizeInMb <=? 0); [discriminate|].
  intros [= <-]. induction cs as [|c cs IH] using rev_ind.
  - repeat split; auto. intros n e Ha. discriminate.
  - rewrite run_snoc. by apply call_consistent.
Qed.

Lemma Get_of_entry now name tc :
  match lru.assoc name (lru.entries (typecache.entries tc)) with
  | None => typecache.Get now name tc = (typecache.UnknownType, tc)
  | Some e =>
      if typecache.expiry e <? now
      then fst (typecache.Get now name tc) = typecache.UnknownType
           /\ lru.assoc name
                (lru.entries (typecache.entries
                                (snd (typecache.Get now name tc)))) = None
      else fst (typecache.Get now name tc) = typecache.inodeType e
  end.
Proof.
  unfold typecache.Get, lru.LookUp.
  destruct (lru.assoc name (lru.entries (typecache.entries tc))) as [e|];
    [|reflexivity].
  destruct (typecache.expiry e <? now); simpl; [|reflexivity].
  split; [reflexivity|].
  destruct (decide (name = name)); [|contradiction]. apply assoc_remove_eq.
Qed.

(** C10: a type cache created with a TTL of zero stays empty, [Insert]
    leaves it as it is and [Get] answers [UnknownType] for every name and
    time.  In general, when [Get] answers a type other than [UnknownType], it
    is the type of the last [Insert] of that name and the expiry of that
    insert, its time plus the TTL, is not before [now]; an entry whose
    expiry is before [now] is erased and [UnknownType] is answered; an entry
    that has not expired is answered; and a [Get] right after an [Insert]
    answers the inserted type unless it has expired. *)
Theorem typeCache_Get_expiry sizeInMb ttl0 tc0 cs now name :
  typecache.newTypeCache sizeInMb ttl0 = Some tc0 ->
  let tc := typecache.run cs tc0 in
  (ttl0 = 0 ->
   (forall t n it, typecache.Insert t n it tc = tc)
   /\ lru.entries (typecache.entries tc) = []
   /\ typecache.Get now name tc = (typecache.UnknownType, tc))
  /\ (forall it,
         fst (typecache.Get now name tc) = it ->
         it <> typecache.UnknownType ->
         exists t0,
           typecache.lastInsert name cs = Some (t0, it)
           /\ ~ (t0 + ttl0 < now))
  /\ (forall e,
         lru.assoc name (lru.entries (typecache.entries tc)) = Some e ->
         if typecache.expiry e <? now
         then fst (typecache.Get now name tc) = typecache.UnknownType
              /\ lru.assoc name
                   (lru.entries (typecache.entries
                                   (snd (typecache.Get now name tc)))) = None
         else fst (typecache.Get now name tc) = typecache.inodeType e)
  /\ (ttl0 <> 0 -> sizeInMb < 2 ^ 44 ->
      forall t0 it,
        fst (typecache.Get now name (typecache.Insert t0 name it tc))
        = if t0 + ttl0 <? now then typecache.UnknownType else it).
Proof.
  intros Hnew tc.
  pose proof (run_consistent sizeInMb ttl0 tc0 cs Hnew)
    as (Httl & Hmax & Hempty & Hent).
  fold tc in Httl, Hmax, Hempty, Hent.
  pose proof (Get_of_entry now name tc) as Hget.
  split; [|split; [|split]].
  - intros Hz. specialize (Hempty (or_introl Hz)).
    split; [|split; [exact Hempty|]].
    + intros t n it. unfold typecache.Insert. rewrite Httl, Hz. reflexivity.
    + rewrite Hempty in Hget. exact Hget.
  - intros it Hit Hne.
    destruct (lru.assoc name (lru.entries (typecache.entries tc))) as [e|] eqn:Ha.
    + destruct (Hent name e Ha) as (t0 & Hlast & Hexp).
      destruct (typecache.expiry e <? now) eqn:Hlt.
      * destruct Hget as [Hu _]. congruence.
      * apply Z.ltb_ge in Hlt. exists t0. split; [congruence | lia].
    + rewrite Hget in Hit. simpl in Hit. congruence.
  - intros e Ha. rewrite Ha in Hget. exact Hget.
  - intros Hnz Hsz t0 it.
    assert (Hfit : 32 <= lru.maxSize (typecache.entries tc)).
    { rewrite Hmax. unfold typecache.newTypeCache in Hnew.
      destruct (sizeInMb <=? 0) eqn:Hle; [discriminate|].
      apply Z.leb_gt in Hle. unfold uint64, typecache.MiBtoBytes.
      rewrite (Z.mod_small (1024 * 1024)) by lia.
      rewrite (Z.mod_small sizeInMb) by lia.
      rewrite Z.mod_small by lia. lia. }
    pose proof (Get_of_entry now name (typecache.Insert t0 name it tc)) as Hg.
    unfold typecache.Insert in Hg |- *.
    rewrite Httl in Hg |- *.
    destruct (ttl0 =? 0) eqn:Hz; [apply Z.eqb_eq in Hz; contradiction|].
    cbn [typecache.entries] in Hg.
    rewrite assoc_Insert_eq in Hg; [| intros x; by compute | exact Hfit].
    cbn [typecache.expiry typecache.inodeType] in Hg.
    destruct (t0 + ttl0 <? now); [apply Hg | exact Hg].
Qed.

Lemma typeCache_Get_expiry_witness :
  let cs := [typecache.CallInsert 100 "a" typecache.RegularFileType;
             typecache.CallInsert 200 "b" typecache.ExplicitDirType;
             typecache.CallGet 300 "b"] in
  typecache.newTypeCache 4 60000000000 = Some minuteCache
  /\ fst (typecache.Get 60000000100 "a" (typecache.run cs minuteCache))
     = typecache.RegularFileType
  /\ fst (typecache.Get 60000000101 "a" (typecache.run cs minuteCache))
     = typecache.UnknownType
  /\ exists t0,
      typecache.lastInsert "a" cs = Some (t0, typecache.RegularFileType)
      /\ ~ (t0 + 60000000000 < 60000000100).
Proof.
  intros cs.
  split; [reflexivity|]. split; [reflexivity|]. split; [reflexivity|].
  refine (proj1 (proj2 (typeCache_Get_expiry 4 60000000000 minuteCache cs
                          60000000100 "a" eq_refl))
            typecache.RegularFileType eq_refl _).
  discriminate.
Defined.

(* ================================================================== *)
(** * Further properties of the inode *)

(** ** Fetching the content *)

Lemma ensureContent_reader w f r f1 t1 req :
  inode.ensureContent w f = (r, f1, t1) ->
  EvNewReader req ∈ t1 ->
  req = readerRequest f
  /\ forall err,
      bucket_NewReader w (readerRequest f) = RErr err ->
      f1 = f
      /\ r = inode.Err
               (Errorf "openReader Error: "
                  (Errorf "NewReader: "
                     (if As_NotFoundError err
                      then FileClobberedError (Some (Errorf "NewReader: " err))
                      else err))).
Proof.
  unfold inode.ensureContent, inode.openReader, readerRequest. run_m.
  intros He Hin.
  repeat (split_hyp; run_m; simpl in He); simplify_eq;
    trace_in Hin; simplify_eq;
    (split; [reflexivity|]); intros err Herr; simplify_eq;
    repeat match goal with
           | H : As_NotFoundError _ = _ |- _ => rewrite H
           end; auto.
Qed.

(** A reader event of an operation is one of its [ensureContent], whose
    error the operation returns wrapped. *)
Lemma exec_reader w op f r f' tr req :
  exec w op f = (r, f', tr) ->
  EvNewReader req ∈ tr ->
  exists r1 f1 t1,
    inode.ensureContent w f = (r1, f1, t1)
    /\ EvNewReader req ∈ t1
    /\ forall e, r1 = inode.Err e ->
                 r = inode.Err (Errorf "ensureContent: " e) /\ f' = f1.
Proof.
  intros Hex Hin.
  pose proof (clobbered_state w true true f) as [_ Hct].
  destruct op; exec_paths Hex w f Hen Hcl;
    unfold traceOf in Hct; simpl in Hct; subst;
    trace_in Hin;
    try (eexists _, _, _; split; [reflexivity|]; split; [exact Hin|];
         intros; simplify_eq; auto).
Qed.

(** X1: whatever the operation, a reader the inode opens on the bucket is
    for the source object by name, pinned to the source generation, and
    compressed exactly when the source is gzip-encoded. *)
Theorem reader_is_pinned w op f req :
  EvNewReader req ∈ traceOf (exec w op f) ->
  gcs.ro_Name req = gcs.Name (inode.src f)
  /\ gcs.ro_Generation req = gcs.Generation (inode.src f)
  /\ gcs.ReadCompressed req = gcs.HasContentEncodingGzip (inode.src f).
Proof.
  intros Hin. destruct (exec w op f) as [[r f'] tr] eqn:Hex.
  destruct (exec_reader w op f r f' tr req Hex Hin)
    as (r1 & f1 & t1 & Hen & Hin1 & _).
  destruct (ensureContent_reader w f r1 f1 t1 req Hen Hin1) as [-> _].
  repeat split.
Qed.

Lemma reader_is_pinned_witness :
  let w := worldOf (Some (sampleObject 10 7 1)) [] (None, None) (None, None) in
  traceOf (exec w (OpRead 4 0) (tenBytes false))
  = [EvNewReader (readerRequest (tenBytes false)); EvNewTempFile;
     EvContentReadAt 4 0]
  /\ gcs.ro_Generation (readerRequest (tenBytes false)) = 7.
Proof.
  intros w. split; [reflexivity|].
  refine (proj1 (proj2 (reader_is_pinned w (OpRead 4 0) (tenBytes false)
                          (readerRequest (tenBytes false)) _))).
  apply list_elem_of_In. simpl. auto.
Defined.

(** X2: when the reader an operation opens answers with an error in which
    a not-found error is found, the operation fails with an error in which
    a [FileClobberedError] is found, and the inode is as before. *)
Theorem reader_not_found_is_clobbered w op f r f' tr err :
  exec w op f = (r, f', tr) ->
  EvNewReader (readerRequest f) ∈ tr ->
  bucket_NewReader w (readerRequest f) = RErr err ->
  As_NotFoundError err = true ->
  exists e, r = inode.Err e /\ As_FileClobberedError e = true /\ f' = f.
Proof.
  intros Hex Hin Herr Hnf.
  destruct (exec_reader w op f r f' tr _ Hex Hin)
    as (r1 & f1 & t1 & Hen & Hin1 & Hwrap).
  destruct (ensureContent_reader w f r1 f1 t1 _ Hen Hin1) as [_ Hr].
  destruct (Hr err Herr) as [-> ->]. rewrite Hnf in Hwrap.
  destruct (Hwrap _ eq_refl) as [-> ->].
  eexists. split; [reflexivity|]. split; reflexivity.
Qed.

Lemma reader_not_found_is_clobbered_witness :
  let w := {| clock_Now := 9000; bucket_Name := "bucket";
              bucket_StatObject := fun _ => (None, None, None);
              bucket_NewReader := fun _ => RErr (NotFoundError "gone");
              bucket_UpdateObject := fun _ => (None, None);
              bucket_SyncObject := fun _ _ _ => (None, None);
              cache_Get := fun _ => None;
              cache_AddOrReplace := fun _ _ _ _ => RErr (OtherError "full");
              cache_NewTempFile := None; content_err := None;
              NewBWHandler_err := None; upload_err := None;
              strconv_ParseInt := fun _ => None;
              time_Parse := fun _ => RErr (OtherError "parsing time");
              time_Format := fun _ => ""%string |} in
  exists e,
    outcome (exec w (OpRead 4 0) (tenBytes false)) = inode.Err e
    /\ As_FileClobberedError e = true
    /\ stateOf (exec w (OpRead 4 0) (tenBytes false)) = tenBytes false.
Proof.
  intros w.
  destruct (exec w (OpRead 4 0) (tenBytes false)) as [[r f'] tr] eqn:Hex.
  refine (reader_not_found_is_clobbered w (OpRead 4 0) (tenBytes false)
            r f' tr (NotFoundError "gone") Hex _ eq_refl eq_refl).
  vm_compute in Hex. injection Hex as _ _ <-.
  apply list_elem_of_In. simpl. auto.
Defined.

(** ** What the operations leave alone *)

(** X3: no operation changes the id, the name, the attributes given at
    creation, the cache mode, the write configuration or the unlinked flag of
    an inode; only [Destroy] changes the destroyed flag, which it sets; only
    [Sync] and [SetMtime] can change the source record; the local flag is
    never set, and only [Sync] can clear it. *)
Theorem operations_frame w op f :
  let f' := stateOf (exec w op f) in
  (inode.id f' = inode.id f
   /\ inode.name f' = inode.name f
   /\ inode.attrs f' = inode.attrs f
   /\ inode.localFileCache f' = inode.localFileCache f
   /\ inode.writeConfig f' = inode.writeConfig f
   /\ inode.unlinked f' = inode.unlinked f)
  /\ match op with
     | OpDestroy => inode.destroyed f' = true
     | _ => inode.destroyed f' = inode.destroyed f
     end
  /\ match op with
     | OpSync => True
     | OpSetMtime _ => inode.local f' = inode.local f
     | _ => inode.src f' = inode.src f /\ inode.local f' = inode.local f
     end
  /\ (inode.local f' = true -> inode.local f = true).
Proof.
  cbv zeta. destruct (exec w op f) as [[r f'] tr] eqn:Hex.
  unfold stateOf. simpl.
  pose proof (ensureContent_frame w f) as Hec.
  pose proof (clobbered_state w true true f) as [Hcs _].
  unfold stateOf in Hcs.
  destruct op; exec_paths Hex w f Hen Hcl;
    try (simpl in Hcs; subst);
    try (destruct (Hec _ _ _ eq_refl) as (_ & [-> | [? ->]] & _));
    simpl; unfold inode.IsLocal in *; repeat split; auto; congruence.
Qed.

(** X4: when the bucket answers an update or a sync with an object named as
    it was asked, every operation keeps the invariant of the source record:
    unless destroyed or local, the inode's source object is named as the
    inode. *)
Theorem operations_keep_source_name w op f :
  namesAsAsked w ->
  srcNameInvariant f ->
  srcNameInvariant (stateOf (exec w op f)).
Proof.
  intros [Hup Hsy] Hinv. destruct (exec w op f) as [[r f'] tr] eqn:Hex.
  unfold stateOf. simpl.
  pose proof (ensureContent_frame w f) as Hec.
  pose proof (clobbered_state w true true f) as [Hcs _].
  unfold stateOf in Hcs. unfold srcNameInvariant, inode.IsLocal in *.
  destruct op; exec_paths Hex w f Hen Hcl;
    try (simpl in Hcs; subst);
    try (destruct (Hec _ _ _ eq_refl) as (_ & [-> | [? ->]] & _));
    simpl; try (exact Hinv); try discriminate;
    intros Hd Hl.
  all: repeat match goal with
              | H : bucket_UpdateObject _ _ = (_, None) |- _ =>
                  apply Hup in H as (? & -> & ?)
              | H : bucket_SyncObject _ _ _ _ = (?o, None) |- _ =>
                  is_var o; destruct o
              | H : bucket_SyncObject _ _ _ _ = (Some _, None) |- _ =>
                  apply Hsy in H
              | H : context [bool_decide (None <> None)] |- _ =>
                  rewrite bool_decide_false in H by congruence
              end;
    simpl in *; simplify_eq; auto; try congruence.
  all: etrans; [eassumption | by apply Hinv].
Qed.

Lemma operations_keep_source_name_witness :
  let f' := stateOf (exec honestWorld OpSync (truncatedTo4 false)) in
  inode.SourceGeneration f' = {| Object := 8; Metadata := 1 |}
  /\ gcs.Name (inode.src f') = GcsObjectName (inode.name f').
Proof.
  intros f'. split; [reflexivity|].
  refine (operations_keep_source_name honestWorld OpSync (truncatedTo4 false)
            _ _ eq_refl eq_refl).
  - split.
    + intros req o [= <-]. eauto.
    + intros objName latest tf o [= <-]. reflexivity.
  - intros _ _. reflexivity.
Defined.

(** ** SetMtime: when the bucket is asked *)

(** Every path through [SetMtime]. *)
Ltac setmtime_paths H :=
  unfold inode.SetMtime, inode.content_Stat, inode.IsLocal,
    inode.SourceGeneration in H;
  run_m;
  repeat (run_m; simpl in H; try split_hyp);
  simplify_eq.

(** X5: the only call [SetMtime] ever makes on the bucket is the
    [UpdateObject] of its update path; on a streaming inode, a local inode
    or an inode whose scratch is dirty it makes none. *)
Theorem SetMtime_asks_bucket_only_on_update_path w mtime f ev :
  ev ∈ traceOf (inode.SetMtime w mtime f) ->
  isBucketCall ev = true ->
  onUpdatePath w f /\ ev = EvUpdateObject (mtimeRequest w mtime f).
Proof.
  destruct (inode.SetMtime w mtime f) as [[r f'] tr] eqn:Hs.
  unfold traceOf, onUpdatePath, mtimeRequest. simpl. intros Hin Hb.
  setmtime_paths Hs; trace_in Hin; simplify_eq; simpl in Hb;
    try discriminate.
  all: try match goal with
           | H : _ || _ = false |- _ =>
               apply orb_false_iff in H as [Hd Hl];
               apply bool_decide_eq_false in Hd; simpl in Hd
           end.
  all: repeat split; auto.
  all: destruct (gcsx.tf_mtime _); [exfalso; apply Hd; discriminate | reflexivity].
Qed.

Lemma SetMtime_asks_bucket_only_on_update_path_witness :
  onUpdatePath honestWorld (tenBytes false)
  /\ EvUpdateObject (mtimeRequest honestWorld 1704164645000000006 (tenBytes false))
     ∈ traceOf (inode.SetMtime honestWorld 1704164645000000006 (tenBytes false)).
Proof.
  assert (Hin : EvUpdateObject
                  (mtimeRequest honestWorld 1704164645000000006 (tenBytes false))
                ∈ traceOf (inode.SetMtime honestWorld 1704164645000000006
                             (tenBytes false))).
  { apply list_elem_of_In. simpl. auto. }
  split; [|exact Hin].
  exact (proj1 (SetMtime_asks_bucket_only_on_update_path honestWorld
                  1704164645000000006 (tenBytes false) _ Hin eq_refl)).
Defined.

(** X6: [SetMtime] panics exactly on a local inode that has neither a
    handler nor scratch content: it then calls [SetMtime] on a nil
    content. *)
Theorem SetMtime_panics_iff w mtime f :
  outcome (inode.SetMtime w mtime f) = inode.Panic
  <-> inode.bwh f = None /\ inode.content f = None /\ inode.local f = true.
Proof.
  destruct (inode.SetMtime w mtime f) as [[r f'] tr] eqn:Hs.
  unfold outcome. simpl. split.
  - intros ->. setmtime_paths Hs; auto.
  - intros (Hb & Hc & Hl). unfold inode.SetMtime, inode.IsLocal in Hs. run_m.
    rewrite Hb, Hc, Hl in Hs. simpl in Hs. rewrite ?Hc in Hs. by simplify_eq.
Qed.

(** X7: with no handler and an inspectable scratch file that is dirty, or
    on a local inode with scratch, [SetMtime] only stamps the scratch file;
    a second [SetMtime] with the same time changes nothing more, and the
    attributes then report that time as mtime, atime and ctime. *)
Theorem SetMtime_on_dirty_scratch w w' w'' mtime f tf :
  inode.bwh f = None ->
  inode.content f = Some tf ->
  gcsx.tf_mtime tf <> None \/ inode.local f = true ->
  content_err w = None ->
  content_err w' = None ->
  let f1 := inode.set_content (Some (gcsx.SetMtime tf mtime)) f in
  inode.SetMtime w mtime f
  = (inode.Ok tt, f1, [EvContentStat; EvContentSetMtime mtime])
  /\ stateOf (inode.SetMtime w' mtime f1) = f1
  /\ forall a,
      outcome (inode.Attributes w'' f1) = inode.Ok a ->
      fuseops.Mtime a = mtime
      /\ fuseops.Atime a = mtime
      /\ fuseops.Ctime a = mtime.
Proof.
  intros Hb Hc Hd He He' f1.
  assert (Hrun : forall w0 f0 tf0,
             inode.bwh f0 = None -> inode.content f0 = Some tf0 ->
             gcsx.tf_mtime tf0 <> None \/ inode.local f0 = true ->
             content_err w0 = None ->
             inode.SetMtime w0 mtime f0
             = (inode.Ok tt, inode.set_content (Some (gcsx.SetMtime tf0 mtime)) f0,
                [EvContentStat; EvContentSetMtime mtime])).
  { clear. intros w0 f0 tf0 Hb Hc Hd He.
    unfold inode.SetMtime, inode.content_Stat, inode.IsLocal. run_m.
    rewrite Hb, Hc, He. simpl.
    assert (bool_decide (gcsx.tf_mtime tf0 <> None) || inode.local f0 = true)
      as ->.
    { destruct Hd as [Hd | ->]; [|apply orb_true_r].
      rewrite bool_decide_true by done. reflexivity. }
    rewrite ?Hc. reflexivity. }
  split; [by apply Hrun|]. split.
  - rewrite (Hrun w' f1 (gcsx.SetMtime tf mtime)); auto.
  - intros a Ha. unfold outcome in Ha.
    destruct (inode.Attributes w'' f1) as [[r f'] tr] eqn:Hat. simpl in Ha.
    subst r. revert Hat.
    unfold inode.Attributes, inode.content_Stat. run_m.
    repeat (split_goal; run_m; simpl); intros; simplify_eq; simpl; auto.
Qed.

Lemma SetMtime_on_dirty_scratch_witness :
  let f1 := inode.set_content
              (Some (gcsx.SetMtime
                       {| gcsx.tf_data := replicate 20 Byte.x41;
                          gcsx.tf_mtime := Some 7777;
                          gcsx.tf_destroyed := false |} 4242)) dirtyTwenty in
  inode.SetMtime honestWorld 4242 dirtyTwenty
  = (inode.Ok tt, f1, [EvContentStat; EvContentSetMtime 4242])
  /\ stateOf (inode.SetMtime honestWorld 4242 f1) = f1.
Proof.
  intros f1.
  pose proof (SetMtime_on_dirty_scratch honestWorld honestWorld honestWorld
                4242 dirtyTwenty _ eq_refl eq_refl
                (or_introl (fun H => eq_ind (Some 7777)
                                       (fun o => match o with
                                                 | Some _ => True
                                                 | None => False end)
                                       I None H))
                eq_refl eq_refl) as (H1 & H2 & _).
  split; [exact H1 | exact H2].
Defined.

(** ** Sync: what else it guarantees *)

(** Every path through [Sync], with the run of [clobbered] named. *)
Ltac sync_paths H w f Hcl :=
  pose proof (clobbered_state w true true f) as [? ?];
  destruct (inode.clobbered w true true f) as [[? ?] ?] eqn:Hcl;
  unfold inode.Sync, inode.IsLocal, stateOf, traceOf in *;
  run_m;
  repeat (run_m; simpl in *; try split_hyp);
  simplify_eq.

(** X8: a [Sync] or a [SetMtime] that returns an error leaves the inode
    exactly as it was; in particular the source generation does not
    change. *)
Theorem failed_Sync_or_SetMtime_keeps_inode w mtime f e :
  (outcome (inode.Sync w f) = inode.Err e -> stateOf (inode.Sync w f) = f)
  /\ (outcome (inode.SetMtime w mtime f) = inode.Err e ->
      stateOf (inode.SetMtime w mtime f) = f).
Proof.
  split.
  - destruct (inode.Sync w f) as [[r f'] tr] eqn:Hs.
    unfold outcome. simpl. intros ->.
    sync_paths Hs w f Hcl; reflexivity.
  - destruct (inode.SetMtime w mtime f) as [[r f'] tr] eqn:Hs.
    unfold outcome, stateOf. simpl. intros ->.
    setmtime_paths Hs; reflexivity.
Qed.

(** X9: [Sync] calls [SyncObject] only after a forced stat with extended
    attributes that did not find the inode clobbered; it passes the inode's
    object name, the object the stat returned and the inode's scratch
    content. *)
Theorem Sync_uploads_after_clean_stat w f objName latest tf :
  EvSyncObject objName latest tf ∈ traceOf (inode.Sync w f) ->
  objName = GcsObjectName (inode.name f)
  /\ inode.content f = Some tf
  /\ inode.clobbered w true true f
     = (inode.Ok (latest, false), f, [EvStatObject (statRequest f true true)])
  /\ exists rest,
      traceOf (inode.Sync w f)
      = EvStatObject (statRequest f true true)
        :: EvSyncObject objName latest tf :: rest
      /\ forall ev, ev ∈ rest -> isBucketCall ev = false.
Proof.
  destruct (inode.Sync w f) as [[r f'] tr] eqn:Hs. intros Hin.
  sync_paths Hs w f Hcl; trace_in Hin; simplify_eq;
    match goal with a : (option gcs.Object * bool)%type |- _ =>
      destruct a as [lo b]; simpl in *; subst b
    end;
    (split; [reflexivity|]); (split; [reflexivity|]);
    (split; [reflexivity|]);
    eexists; (split; [reflexivity|]);
    intros ev Hev; trace_in Hev; subst; reflexivity.
Qed.

Lemma Sync_uploads_after_clean_stat_witness :
  let f := truncatedTo4 false in
  exists tf,
    inode.content f = Some tf
    /\ inode.clobbered syncWorld true true f
       = (inode.Ok (Some (fullObject (sampleObject 10 7 1)), false), f,
          [EvStatObject (statRequest f true true)]).
Proof.
  intros f.
  assert (Hin : EvSyncObject "dir/file.txt"
                  (Some (fullObject (sampleObject 10 7 1)))
                  {| gcsx.tf_data := [Byte.x00; Byte.x00; Byte.x00; Byte.x00];
                     gcsx.tf_mtime := Some 9000; gcsx.tf_destroyed := false |}
                ∈ traceOf (inode.Sync syncWorld f)).
  { apply list_elem_of_In. simpl. auto. }
  destruct (Sync_uploads_after_clean_stat syncWorld f _ _ _ Hin)
    as (_ & Hc & Hcl & _).
  eexists. split; [exact Hc | exact Hcl].
Defined.

(** X10: when the forced stat of [Sync] finds the inode clobbered, [Sync]
    returns a [FileClobberedError] with no inner error; when that stat
    fails, [Sync] returns its error as it is.  In both cases nothing is
    uploaded and the inode is as before. *)
Theorem Sync_stops_at_stat w f :
  inode.content f <> None ->
  match outcome (inode.clobbered w true true f) with
  | inode.Ok (_, true) =>
      inode.Sync w f
      = (inode.Err (FileClobberedError None), f,
         [EvStatObject (statRequest f true true)])
  | inode.Ok (_, false) => True
  | inode.Err e =>
      inode.Sync w f
      = (inode.Err e, f, [EvStatObject (statRequest f true true)])
  | inode.Panic => outcome (inode.Sync w f) = inode.Panic
  end.
Proof.
  intros Hc.
  pose proof (clobbered_state w true true f) as [Hst Htr].
  unfold inode.Sync, outcome, stateOf, traceOf in *. run_m.
  destruct (inode.content f) as [tf|]; [|congruence].
  destruct (inode.clobbered w true true f) as [[[[o []]|e|] f1] t1];
    simpl in *; subst; auto.
Qed.

Lemma Sync_stops_at_stat_witness :
  let w := worldOf (Some (sampleObject 10 9 1)) [] (None, None) (None, None) in
  inode.Sync w (truncatedTo4 false)
  = (inode.Err (FileClobberedError None), truncatedTo4 false,
     [EvStatObject (statRequest (truncatedTo4 false) true true)]).
Proof.
  intros w.
  exact (Sync_stops_at_stat w (truncatedTo4 false)
           (fun H => eq_ind (inode.content (truncatedTo4 false))
                       (fun o => match o with
                                 | Some _ => True
                                 | None => False end)
                       I None H)).
Defined.

(** ** Attributes and Unlink *)

(** Every path through [Attributes], with the run of [clobbered] named. *)
Ltac attributes_paths H w f Hcl :=
  pose proof (clobbered_state w false false f) as [? ?];
  destruct (inode.clobbered w false false f) as [[? ?] ?] eqn:Hcl;
  unfold inode.Attributes, inode.content_Stat, inode.IsLocal,
    inode.IsUnlinked, outcome, stateOf, traceOf in *;
  run_m;
  repeat (run_m; simpl in *; try split_hyp);
  simplify_eq.

(** X11: [Attributes] never changes the inode, and the only call it makes
    on the bucket is one stat of the inode's object, neither forced nor
    with extended attributes. *)
Theorem Attributes_reads_only w f :
  stateOf (inode.Attributes w f) = f
  /\ forall ev,
      ev ∈ traceOf (inode.Attributes w f) ->
      isBucketCall ev = true ->
      ev = EvStatObject (statRequest f false false).
Proof.
  destruct (inode.Attributes w f) as [[r f'] tr] eqn:Ha.
  split.
  - attributes_paths Ha w f Hcl; reflexivity.
  - intros ev Hin Hb.
    attributes_paths Ha w f Hcl; trace_in Hin; subst;
      try discriminate; reflexivity.
Qed.

Lemma Attributes_nlink_value w f a :
  outcome (inode.Attributes w f) = inode.Ok a ->
  exists o b,
    outcome (inode.clobbered w false false f) = inode.Ok (o, b)
    /\ fuseops.Nlink a
       = if b || inode.local f && inode.unlinked f then 0 else 1.
Proof.
  destruct (inode.Attributes w f) as [[r f'] tr] eqn:Ha.
  intros Hr. unfold outcome in Hr. simpl in Hr. subst r.
  attributes_paths Ha w f Hcl;
    match goal with
    | p : (option gcs.Object * bool)%type |- _ =>
        destruct p as [stat clob]
    end; simpl in *;
    exists stat, clob; (split; [reflexivity|]);
    match goal with
    | H : _ || _ = _ |- _ => rewrite H
    end; reflexivity.
Qed.

(** X12: the link count [Attributes] reports is 0 or 1, and it is 0 exactly
    when the stat found the inode clobbered or the inode is local and
    unlinked. *)
Theorem Attributes_nlink w f a :
  outcome (inode.Attributes w f) = inode.Ok a ->
  (fuseops.Nlink a = 0 \/ fuseops.Nlink a = 1)
  /\ (fuseops.Nlink a = 0
      <-> (exists o, outcome (inode.clobbered w false false f)
                     = inode.Ok (o, true))
          \/ (inode.local f = true /\ inode.unlinked f = true)).
Proof.
  intros Ha.
  destruct (Attributes_nlink_value w f a Ha) as (o & b & Hcl & Hn).
  rewrite Hn, Hcl. clear Hn.
  destruct b, (inode.local f), (inode.unlinked f); simpl;
    (split; [auto|]); split; intros H; try discriminate; eauto;
    destruct H as [[o' H] | [H1 H2]]; congruence.
Qed.

Lemma Attributes_nlink_witness :
  let w := withParse 6000
             (worldOf (Some (sampleObject 10 9 1)) [] (None, None) (None, None)) in
  exists a,
    outcome (inode.Attributes w dirtyTwenty) = inode.Ok a
    /\ fuseops.Nlink a = 0.
Proof.
  intros w.
  destruct (inode.Attributes w dirtyTwenty) as [[r f'] tr] eqn:Ha.
  assert (Hr : exists a, r = inode.Ok a).
  { vm_compute in Ha. injection Ha as <- _ _. eauto. }
  destruct Hr as [a ->]. exists a. split; [reflexivity|].
  apply (proj2 (Attributes_nlink w dirtyTwenty a
                  (f_equal (fun x => fst (fst x)) Ha))).
  left. eexists. reflexivity.
Defined.

(** X13: [Unlink] calls no collaborator and changes only the unlinked
    flag.  After it the attributes of a local inode report a link count of
    0, and those of an inode that is not local are what they were. *)
Theorem Unlink_then_Attributes w f :
  inode.Unlink f = (inode.Ok tt, inode.set_unlinked true f, [])
  /\ (inode.local f = true ->
      forall a,
        outcome (inode.Attributes w (stateOf (inode.Unlink f))) = inode.Ok a ->
        fuseops.Nlink a = 0)
  /\ (inode.local f = false ->
      outcome (inode.Attributes w (stateOf (inode.Unlink f)))
      = outcome (inode.Attributes w f)).
Proof.
  split; [reflexivity|]. split.
  - intros Hl a Ha.
    destruct (Attributes_nlink_value w _ a Ha) as (o & b & _ & ->).
    unfold stateOf. simpl. rewrite Hl. by rewrite orb_true_r.
  - intros Hl. unfold stateOf, outcome. simpl.
    unfold inode.Attributes, inode.clobbered, inode.content_Stat,
      inode.IsLocal, inode.IsUnlinked, inode.SourceGeneration.
    run_m. simpl. rewrite Hl.
    repeat (split_goal; run_m; simpl); reflexivity.
Qed.

(** ** Which operations reach the bucket *)




(** X15: [CacheEnsureContent] does nothing unless the content cache is in
    use.  When it is and content is obtained without a call on the bucket,
    that content is the file of the cache entry of the inode's key, and the
    generation pair of that entry is the one of the source record. *)
Theorem CacheEnsureContent_adopts_matching_generation w f :
  (inode.localFileCache f = false ->
   inode.CacheEnsureContent w f = (inode.Ok tt, f, []))
  /\ (inode.localFileCache f = true ->
      outcome (inode.CacheEnsureContent w f) = inode.Ok tt ->
      (forall ev, ev ∈ traceOf (inode.CacheEnsureContent w f) ->
                  isBucketCall ev = false) ->
      exists co,
        cache_Get w (inode.cacheObjectKey w f) = Some co
        /\ contentcache.co_Generation co = gcs.Generation (inode.src f)
        /\ contentcache.co_MetaGeneration co
           = gcs.MetaGeneration (inode.src f)
        /\ stateOf (inode.CacheEnsureContent w f)
           = inode.set_content (Some (contentcache.CacheFile co)) f).
Proof.
  split.
  - intros Hl. unfold inode.CacheEnsureContent. run_m. by rewrite Hl.
  - intros Hl.
    destruct (inode.CacheEnsureContent w f) as [[r f'] tr] eqn:Hc.
    unfold outcome, stateOf, traceOf. simpl. intros -> Hnb.
    unfold inode.CacheEnsureContent, inode.ensureContent, inode.openReader,
      contentcache.ValidateGeneration in Hc.
    run_m. rewrite Hl in Hc. simpl in Hc. rewrite Hl in Hc.
    repeat (run_m; simpl in Hc; try split_hyp); simplify_eq;
      try (match goal with
           | H : _ && _ = true |- _ =>
               apply andb_true_iff in H as [?%Z.eqb_eq ?%Z.eqb_eq]
           end; eauto);
      exfalso;
      match goal with
      | |- _ =>
          specialize (Hnb (EvNewReader (readerRequest f)));
          unfold readerRequest in Hnb; simpl in Hnb;
          assert (true = false) by (apply Hnb; apply list_elem_of_In; simpl; auto);
          discriminate
      end.
Qed.

(** ** New files and streaming inodes *)

(** X16: after a successful [CreateBufferedOrTempWriter] on a pristine
    inode there is a handler and no scratch if the inode is local and
    streaming writes are configured, and scratch and no handler otherwise;
    either way the attributes then report the size 0 and the creation time
    as mtime, and on a local inode [SetMtime] neither panics nor calls the
    bucket. *)
Theorem CreateBufferedOrTempWriter_new_file w f :
  backing f = Pristine ->
  outcome (inode.CreateBufferedOrTempWriter w f) = inode.Ok tt ->
  let f1 := stateOf (inode.CreateBufferedOrTempWriter w f) in
  backing f1
  = (if inode.local f && streamingWrites f then Streaming else Scratch)
  /\ (forall w' a,
         outcome (inode.Attributes w' f1) = inode.Ok a ->
         fuseops.Size a = 0 /\ fuseops.Mtime a = clock_Now w)
  /\ (inode.local f = true ->
      forall w' mtime,
        outcome (inode.SetMtime w' mtime f1) <> inode.Panic
        /\ forall ev, ev ∈ traceOf (inode.SetMtime w' mtime f1) ->
                      isBucketCall ev = false).
Proof.
  unfold backing, streamingWrites. intros Hb.
  assert (inode.content f = None /\ inode.bwh f = None) as [Hc Hh].
  { destruct (inode.content f), (inode.bwh f); try discriminate; auto. }
  clear Hb.
  destruct (inode.CreateBufferedOrTempWriter w f) as [[r f1] tr] eqn:Hcr.
  unfold outcome, stateOf. simpl. intros ->.
  unfold inode.CreateBufferedOrTempWriter, inode.ensureBufferedWriteHandler
    in Hcr.
  run_m.
  destruct (inode.local f && cfg.ExperimentalEnableStreamingWrites
                               (inode.writeConfig f)) eqn:Hls;
    run_m; simpl in Hcr; rewrite ?Hh in Hcr;
    repeat (run_m; simpl in Hcr; try split_hyp); simplify_eq;
    simpl; rewrite ?Hc, ?Hh.
  - split; [reflexivity|]. split.
    + intros w' a.
      destruct (inode.Attributes w' _) as [[r f'] tr] eqn:Ha.
      unfold outcome. simpl. intros ->. revert Ha.
      unfold inode.Attributes, inode.content_Stat. run_m. simpl. rewrite Hc.
      repeat (split_goal; run_m; simpl); intros; simplify_eq; simpl; auto.
    + intros Hl w' mtime. unfold inode.SetMtime. run_m. simpl. split.
      * discriminate.
      * intros ev Hin. apply list_elem_of_singleton in Hin. by subst.
  - split; [reflexivity|]. split.
    + intros w' a.
      destruct (inode.Attributes w' _) as [[r f'] tr] eqn:Ha.
      unfold outcome. simpl. intros ->. revert Ha.
      unfold inode.Attributes, inode.content_Stat. run_m. simpl. rewrite Hh.
      repeat (split_goal; run_m; simpl); intros; simplify_eq; simpl; auto.
    + intros Hl w' mtime.
      unfold inode.SetMtime, inode.content_Stat, inode.IsLocal. run_m. simpl.
      rewrite Hh. simpl.
      destruct (content_err w'); simpl; (split; [discriminate|]);
        intros ev Hin; trace_in Hin; by subst.
Qed.

Lemma CreateBufferedOrTempWriter_new_file_witness :
  backing streamingLocal = Streaming
  /\ forall w' a,
      outcome (inode.Attributes w' streamingLocal) = inode.Ok a ->
      fuseops.Size a = 0 /\ fuseops.Mtime a = 9000.
Proof.
  pose proof (CreateBufferedOrTempWriter_new_file
                (worldOf None [] (None, None) (None, None)) newLocal
                eq_refl eq_refl) as (H1 & H2 & _).
  split; [exact H1 | exact H2].
Defined.

Lemma exec_keeps_handler w op f :
  is_Some (inode.bwh f) -> is_Some (inode.bwh (after w op f)).
Proof.
  intros [h Hh]. unfold after.
  destruct (exec w op f) as [[r f'] tr] eqn:Hex. simpl.
  pose proof (ensureContent_frame w f) as Hec.
  pose proof (clobbered_state w true true f) as [Hcs _].
  unfold stateOf in Hcs.
  destruct op; exec_paths Hex w f Hen Hcl;
    try (simpl in Hcs; subst);
    try (destruct (Hec _ _ _ eq_refl) as (_ & [-> | [? ->]] & _));
    simpl; eauto; congruence.
Qed.

(** X17: no operation ever drops the buffered write handler of an inode:
    once an inode has one, it has one after every run of operations, and
    every [Read] on it is refused without any call and without a change. *)
Theorem handler_is_never_dropped steps f :
  is_Some (inode.bwh f) ->
  is_Some (inode.bwh (execs steps f))
  /\ forall w n offset,
      inode.Read w n offset (execs steps f)
      = (inode.Err (OtherError "cannot read a file when upload in progress"),
         execs steps f, []).
Proof.
  intros Hh.
  assert (Hkeep : is_Some (inode.bwh (execs steps f))).
  { revert f Hh. unfold execs.
    induction steps as [|[w op] steps IH]; intros f Hh; simpl; [exact Hh|].
    apply IH, exec_keeps_handler, Hh. }
  split; [exact Hkeep|].
  intros w n offset. destruct Hkeep as [h Hk].
  unfold inode.Read. run_m. rewrite Hk. reflexivity.
Qed.

Lemma handler_is_never_dropped_witness :
  let steps := [(syncWorld, OpWrite hello 0); (syncWorld, OpSync);
                (syncWorld, OpSetMtime 4242)] in
  is_Some (inode.bwh (execs steps streamingLocal))
  /\ outcome (inode.Read syncWorld 5 0 (execs steps streamingLocal))
     = inode.Err (OtherError "cannot read a file when upload in progress").
Proof.
  intros steps.
  destruct (handler_is_never_dropped steps streamingLocal
              (ex_intro _ _ eq_refl)) as [H1 H2].
  split; [exact H1|]. unfold outcome. by rewrite H2.
Defined.

(** ** More on the type cache *)

(** The answer of [Get], read off the entry of the name. *)
Lemma Get_answer now name tc :
  fst (typecache.Get now name tc)
  = match lru.assoc name (lru.entries (typecache.entries tc)) with
    | Some e =>
        if typecache.expiry e <? now then typecache.UnknownType
        else typecache.inodeType e
    | None => typecache.UnknownType
    end.
Proof.
  unfold typecache.Get, lru.LookUp.
  destruct (lru.assoc name (lru.entries (typecache.entries tc))) as [e|];
    [|reflexivity].
  destruct (typecache.expiry e <? now); reflexivity.
Qed.

(** The entries after a [Get]: those of before, less the entry of the name
    if it had expired. *)
Lemma Get_entries now name n tc :
  lru.assoc n (lru.entries (typecache.entries (snd (typecache.Get now name tc))))
  = match lru.assoc name (lru.entries (typecache.entries tc)) with
    | Some e =>
        if (typecache.expiry e <? now) && bool_decide (n = name) then None
        else lru.assoc n (lru.entries (typecache.entries tc))
    | None => lru.assoc n (lru.entries (typecache.entries tc))
    end.
Proof.
  unfold typecache.Get, lru.LookUp.
  destruct (lru.assoc name (lru.entries (typecache.entries tc))) as [e|] eqn:Ha;
    [|reflexivity].
  destruct (typecache.expiry e <? now); simpl.
  - destruct (decide (name = n)) as [->|Hne].
    + rewrite bool_decide_true by done.
      destruct (decide (n = n)); [|contradiction]. apply assoc_remove_eq.
    + rewrite bool_decide_false by congruence.
      destruct (decide (name = name)); [|contradiction].
      rewrite !assoc_remove_ne by congruence. reflexivity.
  - destruct (decide (name = n)) as [->|Hne]; [congruence|].
    by rewrite assoc_remove_ne by congruence.
Qed.

(** X18: after [Erase] of a name, [Get] answers [UnknownType] for it at
    every time, and answers for every other name what it answered
    before. *)
Theorem Erase_then_Get now name n tc :
  fst (typecache.Get now name (typecache.Erase name tc))
  = typecache.UnknownType
  /\ (n <> name ->
      fst (typecache.Get now n (typecache.Erase name tc))
      = fst (typecache.Get now n tc)).
Proof.
  rewrite !Get_answer. unfold typecache.Erase, lru.Erase. simpl. split.
  - by rewrite assoc_remove_eq.
  - intros Hne. by rewrite assoc_remove_ne.
Qed.

(** X19: a [Get] does not change what is answered for another name; once
    [Get] has answered [UnknownType] for a name it answers so at every
    time, until the next [Insert]; and an answer other than [UnknownType] is
    repeated for every time that is not later. *)
Theorem Get_then_Get now now' name n tc :
  (n <> name ->
   fst (typecache.Get now' n (snd (typecache.Get now name tc)))
   = fst (typecache.Get now' n tc))
  /\ (fst (typecache.Get now name tc) = typecache.UnknownType ->
      fst (typecache.Get now' name (snd (typecache.Get now name tc)))
      = typecache.UnknownType)
  /\ (now' <= now ->
      fst (typecache.Get now' name (snd (typecache.Get now name tc)))
      = fst (typecache.Get now name tc)
      \/ fst (typecache.Get now name tc) = typecache.UnknownType).
Proof.
  rewrite !Get_answer, !Get_entries.
  destruct (lru.assoc name (lru.entries (typecache.entries tc))) as [e|] eqn:Ha.
  - split; [|split].
    + intros Hne. rewrite bool_decide_false by done.
      by rewrite andb_false_r.
    + rewrite bool_decide_true by done. rewrite andb_true_r.
      destruct (typecache.expiry e <? now) eqn:Hlt; [reflexivity|].
      rewrite ?Ha. intros ->. by destruct (typecache.expiry e <? now').
    + intros Hle. rewrite bool_decide_true by done. rewrite andb_true_r.
      destruct (typecache.expiry e <? now) eqn:Hlt; [by right|].
      rewrite ?Ha. left.
      apply Z.ltb_ge in Hlt.
      destruct (Z.ltb_spec (typecache.expiry e) now'); [lia | reflexivity].
  - split; [|split]; intros; rewrite ?Ha; auto.
Qed.

(** X20: an [Insert] under one name never changes the answer for another
    name into another type: [Get] answers what it answered before, or
    [UnknownType] if the entry was evicted. *)
Theorem Insert_then_Get_other t name it now n tc :
  n <> name ->
  fst (typecache.Get now n (typecache.Insert t name it tc))
  = fst (typecache.Get now n tc)
  \/ fst (typecache.Get now n (typecache.Insert t name it tc))
     = typecache.UnknownType.
Proof.
  intros Hne. rewrite !Get_answer. unfold typecache.Insert.
  destruct (typecache.ttl tc =? 0); [by left|].
  cbn [typecache.entries].
  destruct (lru.assoc n (lru.entries (lru.Insert name _ (typecache.entries tc))))
    as [e|] eqn:Ha; [|by right].
  apply assoc_Insert_inv in Ha as [[-> _] | [[_ Ha] | [_ Ha]]];
    [contradiction | |]; rewrite Ha; by left.
Qed.

Lemma Insert_then_Get_other_witness :
  let tc := typecache.run
              [typecache.CallInsert 100 "a" typecache.RegularFileType]
              minuteCache in
  fst (typecache.Get 500 "a"
         (typecache.Insert 200 "b" typecache.ExplicitDirType tc))
  = typecache.RegularFileType.
Proof.
  intros tc.
  destruct (Insert_then_Get_other 200 "b" typecache.ExplicitDirType 500 "a" tc)
    as [H | H].
  - discriminate.
  - rewrite H. reflexivity.
  - vm_compute in H. discriminate H.
Defined.
